(** * LANGHAM hotel management system: the store and its backing file

    A shallow embedding of [hotel_management_system.py].  The class
    [HotelManagementSystem] keeps a Python list of [Room] objects and rewrites
    one text file after every mutation.  The embedding has three layers:

    - [PyStr]: the string methods the serializer relies on ([str.strip],
      [str.split], [str.join]) and the text layer of [open] ([readlines]
      under universal newlines);
    - [Py]: the effects of a method body, as an exception monad over the
      store, its file system and the events it emits;
    - [Hotel]: the methods themselves, one definition per method;
    - [Dyn]: [save_data] and [add_room] on rooms whose feature list holds
      values of any type;
    - [Reports]: [Room.__str__], the listings, the file as [read] returns
      it, and the commands of the menu;
    - [Menu]: [main], its loop and the lines it reads.

    Modelling conventions.  A Python [str] is a [string]; a character is its
    code point, and the file is read with the encoding it was written with.
    The file system is a finite map from file names to contents.  Opening an
    absent file for reading raises [FileNotFoundError]; opening a file for
    writing always succeeds.  Line ends are written as they are (POSIX), and
    every read of a file sees them under universal newlines.  In a [Room] of
    [Hotel] the elements of a feature list are strings, as the [Room]
    docstring and the serializer assume; [Dyn] has the rooms that [add_room]
    makes from a list of other values. *)

From Stdlib Require Import Ascii String List Bool Arith Lia.
From Stdlib Require DecimalString.
From stdpp Require Import base option list strings gmap fin_maps.

(** ** Python string primitives *)

Module PyStr.

Definition pipe : ascii := "|"%char.
Definition comma : ascii := ","%char.
Definition LF : ascii := "010"%char.
Definition CR : ascii := "013"%char.

(** [str.isspace] on one character: TAB, LF, VT, FF, CR, the four
    separators FS GS RS US, the space, NEL and the no-break space. *)
Definition is_space (c : ascii) : bool :=
  let n := nat_of_ascii c in
  ((9 <=? n) && (n <=? 13)) || ((28 <=? n) && (n <=? 32))
  || (n =? 133) || (n =? 160).

Definition is_empty (s : string) : bool :=
  match s with EmptyString => true | String _ _ => false end.

Fixpoint lstrip (s : string) : string :=
  match s with
  | EmptyString => EmptyString
  | String c s' => if is_space c then lstrip s' else s
  end.

Fixpoint rstrip (s : string) : string :=
  match s with
  | EmptyString => EmptyString
  | String c s' =>
      let r := rstrip s' in
      if is_empty r && is_space c then EmptyString else String c r
  end.

(** [s.strip()] *)
Definition strip (s : string) : string := rstrip (lstrip s).

(** [s.split(sep)] for a one-character separator: never the empty list. *)
Fixpoint split (sep : ascii) (s : string) : list string :=
  match s with
  | EmptyString => [EmptyString]
  | String c s' =>
      if Ascii.eqb c sep then EmptyString :: split sep s'
      else match split sep s' with
           | h :: t => String c h :: t
           | [] => [String c EmptyString]
           end
  end.

(** [sep.join(l)] *)
Fixpoint join (sep : string) (l : list string) : string :=
  match l with
  | [] => EmptyString
  | [x] => x
  | x :: rest => x +:+ sep +:+ join sep rest
  end.

(** The text layer of [open(name, "r")]: with the default [newline=None]
    a CR LF pair and a lone CR are both read as LF. *)
Fixpoint universal_newlines (s : string) : string :=
  match s with
  | EmptyString => EmptyString
  | String c s' =>
      if Ascii.eqb c CR then
        match s' with
        | String c' s'' =>
            if Ascii.eqb c' LF then String LF (universal_newlines s'')
            else String LF (universal_newlines s')
        | EmptyString => String LF EmptyString
        end
      else String c (universal_newlines s')
  end.

(** Cut a text after every LF; each line keeps its terminator and the last
    line may lack one. *)
Fixpoint splitlines_keep (s : string) : list string :=
  match s with
  | EmptyString => []
  | String c s' =>
      if Ascii.eqb c LF then String c EmptyString :: splitlines_keep s'
      else match splitlines_keep s' with
           | h :: t => String c h :: t
           | [] => [String c EmptyString]
           end
  end.

(** [file.readlines()] on a file whose content is [s]. *)
Definition readlines (s : string) : list string :=
  splitlines_keep (universal_newlines s).

(** [c in s] for a character. *)
Fixpoint contains (c : ascii) (s : string) : bool :=
  match s with
  | EmptyString => false
  | String c' s' => Ascii.eqb c' c || contains c s'
  end.

Definition starts_with_space (s : string) : bool :=
  match s with EmptyString => false | String c _ => is_space c end.

Fixpoint ends_with_space (s : string) : bool :=
  match s with
  | EmptyString => false
  | String c EmptyString => is_space c
  | String _ s' => ends_with_space s'
  end.

End PyStr.

(** ** Effects: exceptions, the file system and the console *)

Module Py.

(** The exception classes the program raises or names in a handler.
    [IOError] is Python 3's alias of [OSError]. *)
Inductive exn_class :=
| Exception | SyntaxError | ImportError | IOError | FileNotFoundError
| IndexError | ValueError | TypeError | NameError | ZeroDivisionError
| EOFError | OverflowError.

Global Instance exn_class_eq_dec : EqDecision exn_class.
Proof. solve_decision. Defined.

(** [issubclass raised handler] in the built-in hierarchy. *)
Definition issubclass (raised handler : exn_class) : bool :=
  match handler, raised with
  | Exception, _ => true
  | IOError, FileNotFoundError => true
  | _, _ => bool_decide (raised = handler)
  end.

Record exn := Exn { exn_cls : exn_class; exn_msg : string }.

(** What an operator can observe of a call: a line printed on the console,
    or a file opened for writing and closed with the given content. *)
Inductive event :=
| EvPrint (line : string)
| EvWrite (name content : string).

Section WithHeap.
(** [H] is the state of the object the methods belong to. *)
Context {H : Type}.

Record world := World {
  self : H;
  files : gmap string string;
  trace : list event
}.

Inductive result (A : Type) :=
| Ok (a : A) (w : world)
| Raise (e : exn) (w : world).
Global Arguments Ok {A} a w.
Global Arguments Raise {A} e w.

Definition M (A : Type) : Type := world -> result A.

Definition ret {A} (a : A) : M A := fun w => Ok a w.

Definition bind {A B} (m : M A) (k : A -> M B) : M B :=
  fun w => match m w with
           | Ok a w' => k a w'
           | Raise e w' => Raise e w'
           end.

Definition raise {A} (e : exn) : M A := fun w => Raise e w.

Definition get_self : M H := fun w => Ok (self w) w.

Definition set_self (h : H) : M unit :=
  fun w => Ok tt (World h (files w) (trace w)).

Definition emit (e : event) : M unit :=
  fun w => Ok tt (World (self w) (files w) (trace w ++ [e])).

(** [print(line)] *)
Definition print (line : string) : M unit := emit (EvPrint line).

(** [os.path.exists(name)] *)
Definition path_exists (name : string) : M bool :=
  fun w => Ok (bool_decide (is_Some (files w !! name))) w.

(** [with open(name, "r") as f: f.read()] *)
Definition read_file (name : string) : M string :=
  fun w => match files w !! name with
           | Some data => Ok data w
           | None =>
               Raise (Exn FileNotFoundError
                        ("[Errno 2] No such file or directory: '" +:+ name +:+ "'")) w
           end.

(** [with open(name, "w") as f: f.write(content)]: the file is replaced. *)
Definition write_file (name content : string) : M unit :=
  fun w => Ok tt (World (self w) (<[name := content]> (files w))
                    (trace w ++ [EvWrite name content])).

(** The first handler whose class the raised exception is an instance
    of, as a chain of [except] clauses selects it. *)
Fixpoint select_handler (e : exn) (handlers : list (exn_class * string))
  : option string :=
  match handlers with
  | [] => None
  | (cls, prefix) :: rest =>
      if issubclass (exn_cls e) cls then Some prefix
      else select_handler e rest
  end.

(** [try: body  except C1 as e: print(f"{p1}{e}")  except C2 as e: ...].
    Every handler of the program prints a prefix followed by the
    exception's message.  What the body did before raising stays done. *)
Definition try_except (body : M unit) (handlers : list (exn_class * string))
  : M unit :=
  fun w => match body w with
           | Ok a w' => Ok a w'
           | Raise e w' =>
               match select_handler e handlers with
               | Some prefix => print (prefix +:+ exn_msg e) w'
               | None => Raise e w'
               end
           end.

(** [for x in l: f(x)] *)
Fixpoint for_each {A} (f : A -> M unit) (l : list A) : M unit :=
  match l with
  | [] => ret tt
  | x :: rest => bind (f x) (fun _ => for_each f rest)
  end.

End WithHeap.
Global Arguments world : clear implicits.
Global Arguments result : clear implicits.
Global Arguments M : clear implicits.

Global Instance M_ret {H} : MRet (M H) := fun A => @ret H A.
Global Instance M_bind {H} : MBind (M H) := fun A B k m => @bind H A B m k.

End Py.

(** ** The hotel management system *)

Module Hotel.
Import PyStr Py.

(** [class Room] *)
Record Room := mkRoom {
  room_number : string;
  features : list string;
  is_allocated : bool;
  customer_name : string
}.

Global Instance Room_eq_dec : EqDecision Room.
Proof. solve_decision. Defined.

(** [Room.__init__(room_number, features)] *)
Definition Room_init (number : string) (feats : list string) : Room :=
  mkRoom number feats false "".

(** [room.is_allocated = b] and [room.customer_name = name] *)
Definition set_is_allocated (b : bool) (room : Room) : Room :=
  mkRoom (room_number room) (features room) b (customer_name room).

Definition set_customer_name (name : string) (room : Room) : Room :=
  mkRoom (room_number room) (features room) (is_allocated room) name.

(** A Python value, as far as [add_room] and [str.join] can tell values
    apart: a list or a tuple of values, a str, a value of one of three other
    built-in types, or an instance of any other class that is neither a
    list nor a str, known by the name of its class. *)
#[warnings="-register-all"]
Inductive pyobj :=
| ObjNone
| ObjBool (b : bool)
| ObjInt (n : Z)
| ObjStr (s : string)
| ObjTuple (items : list pyobj)
| ObjList (items : list pyobj)
| ObjOther (class_name : string).

(** [isinstance(v, list)] *)
Definition isinstance_list (v : pyobj) : bool :=
  match v with ObjList _ => true | _ => false end.

(** The [features] arguments that leave the store inside the [Room] data
    model: a list of str, or a value that is no list and is refused.  A list
    with an element of another type makes a room that no [Room] of this
    module stands for; [Dyn.add_room_any] is [add_room] on every [pyobj],
    and [Dyn.as_pyobj] says which value each of these arguments is. *)
Inductive features_arg :=
| PyNone
| PyBool (b : bool)
| PyInt (n : Z)
| PyString (s : string)
| PyTuple (items : list string)
| PyList (items : list string).

(** The state of a [HotelManagementSystem] object is [self.rooms];
    [self.file_name] is assigned once, to a literal. *)
Abbreviation store := (world (list Room)).
Abbreviation St := (M (list Room)).

Definition rooms (w : store) : list Room := self w.

Definition file_name : string := "LHMS_764708175.txt".

(** [f"{b}"] for a bool *)
Definition str_of_bool (b : bool) : string := if b then "True" else "False".

(** The text [save_data] writes for one room, newline included. *)
Definition record_line (room : Room) : string :=
  room_number room +:+ "|" +:+ join "," (features room) +:+ "|"
  +:+ str_of_bool (is_allocated room) +:+ "|" +:+ customer_name room
  +:+ String LF "".

(** The successive [file.write] calls of [save_data]'s loop. *)
Fixpoint written (l : list Room) : string :=
  match l with
  | [] => ""
  | room :: rest => record_line room +:+ written rest
  end.

Definition save_data : St unit :=
  try_except
    (l ← get_self;
     write_file file_name (written l))
    [(IOError, "IOError caught: ")].

Definition ensure_file_exists : St unit :=
  try_except
    (b ← path_exists file_name;
     if negb b then write_file file_name "" else mret tt)
    [(IOError, "IOError caught: ")].

Definition index_error : exn := Exn IndexError "list index out of range".

(** [parts[i]] for an index that is not negative *)
Definition subscript (parts : list string) (i : nat) : St string :=
  match parts !! i with
  | Some x => mret x
  | None => raise index_error
  end.

(** [self.rooms.append(room)] *)
Definition append_room (room : Room) : St unit :=
  l ← get_self; set_self (l ++ [room]).

(** The body of [load_data]'s loop. *)
Definition load_line (line : string) : St unit :=
  let parts := split pipe (strip line) in
  p0 ← subscript parts 0;
  p1 ← subscript parts 1;
  let room := Room_init p0 (split comma p1) in
  p2 ← subscript parts 2;
  let room := set_is_allocated (String.eqb p2 "True") room in
  p3 ← subscript parts 3;
  let room := set_customer_name p3 room in
  append_room room.

Definition load_data : St unit :=
  try_except
    (data ← read_file file_name;
     for_each load_line (readlines data))
    [(FileNotFoundError, "FileNotFoundError caught: ");
     (IOError, "IOError caught: ");
     (IndexError, "IndexError caught: ");
     (ValueError, "ValueError caught: ")].

(** [HotelManagementSystem.__init__] *)
Definition init : St unit :=
  try_except
    (set_self [];;
     ensure_file_exists;;
     load_data)
    [(SyntaxError, "SyntaxError caught: ");
     (ImportError, "ImportError caught: ")].

(** [HotelManagementSystem()] in a directory holding the files [fs]. *)
Definition new (fs : gmap string string) : result (list Room) unit :=
  init (World [] fs []).

Definition add_room (number : string) (feats : features_arg) : St unit :=
  try_except
    (match feats with
     | PyList items =>
         append_room (Room_init number items);;
         save_data;;
         print ("Room " +:+ number +:+ " is successfully added.")
     | _ => raise (Exn TypeError "Features should be a list.")
     end)
    [(ValueError, "ValueError caught: ");
     (TypeError, "TypeError caught: ")].

(** [room.room_number != room_number], the test of [delete_room]'s
    comprehension. *)
Definition keep (number : string) (room : Room) : bool :=
  negb (String.eqb (room_number room) number).

Definition delete_room (number : string) : St unit :=
  try_except
    (l ← get_self;
     set_self (List.filter (keep number) l);;
     save_data;;
     print ("Room " +:+ number +:+ " is successfully deleted."))
    [(ValueError, "ValueError caught: ")].

(** An assignment to an attribute of the room object at position [i] of
    [self.rooms]. *)
Definition update_room (i : nat) (f : Room -> Room) : St unit :=
  l ← get_self; set_self (alter f i l).

(** The loop of [allocate_room] returns at the first room whose number
    matches; the rooms before it are compared and left alone. *)
Definition allocate_room (number customer : string) : St unit :=
  try_except
    (l ← get_self;
     match list_find (fun room => room_number room = number) l with
     | Some (i, room) =>
         if negb (is_allocated room) then
           update_room i (set_is_allocated true);;
           update_room i (set_customer_name customer);;
           print ("Room " +:+ number +:+ " allocated to " +:+ customer +:+ ".");;
           save_data
         else
           print ("Room " +:+ number +:+ " is already allocated.")
     | None => print ("Room " +:+ number +:+ " not found.")
     end)
    [(NameError, "NameError caught: ");
     (Exception, "An error occurred while allocating room: ")].

(** The loop of [bill_and_deallocate] returns at the first room that has
    the number and is allocated. *)
Definition bill_and_deallocate (number : string) : St unit :=
  try_except
    (l ← get_self;
     match list_find (fun room => room_number room = number
                                   ∧ is_allocated room = true) l with
     | Some (i, room) =>
         print ("Billing customer " +:+ customer_name room +:+ " for Room "
                +:+ number +:+ ".");;
         update_room i (set_is_allocated false);;
         update_room i (set_customer_name "");;
         save_data;;
         print ("Room " +:+ number +:+ " is de-allocated for the customer.")
     | None => print ("Room " +:+ number +:+ " not found or not allocated.")
     end)
    [(ZeroDivisionError, "ZeroDivisionError caught: ");
     (Exception, "An error occurred while billing and deallocating room: ")].

Definition save_room_allocation_to_file : St unit :=
  try_except
    (save_data;;
     print "Room allocation saved to file.")
    [(IOError, "IOError caught: ")].

(** [datetime.now()], to the second. *)
Record datetime := mkDatetime {
  year : nat; month : nat; day : nat;
  hour : nat; minute : nat; second : nat
}.

Definition digit (n : nat) : ascii := ascii_of_nat (48 + n mod 10).

(** The last [k] decimal digits of [n], zero padded. *)
Fixpoint digits (k n : nat) : string :=
  match k with
  | O => ""
  | S k' => digits k' (n / 10) +:+ String (digit n) ""
  end.

(** [now.strftime('%Y%m%d_%H%M%S')] *)
Definition strftime (now : datetime) : string :=
  digits 4 (year now) +:+ digits 2 (month now) +:+ digits 2 (day now)
  +:+ "_" +:+ digits 2 (hour now) +:+ digits 2 (minute now)
  +:+ digits 2 (second now).

Definition backup_filename (now : datetime) : string :=
  "LHMS_764708175_Backup_" +:+ strftime now +:+ ".txt".

(** [with open(name, "r") as f: f.read()] as the caller receives it: the
    content under universal newlines. *)
Definition read_text (name : string) : St string :=
  data ← read_file name; mret (universal_newlines data).

Definition backup_file (now : datetime) : St unit :=
  try_except
    (let name := backup_filename now in
     data ← read_text file_name;
     write_file name data;;
     write_file file_name "";;
     print ("Backup created and data cleared from original file. Backup filename: "
            +:+ name))
    [(IOError, "IOError caught: ");
     (OverflowError, "OverflowError caught: ")].

(** A call of the public interface, and a run of several. *)
Inductive call :=
| AllocateRoom (number customer : string)
| BillAndDeallocate (number : string).

Definition perform (c : call) : St unit :=
  match c with
  | AllocateRoom number customer => allocate_room number customer
  | BillAndDeallocate number => bill_and_deallocate number
  end.

Definition run (calls : list call) : St unit := for_each perform calls.

(** The state in which a call ends, whether it returned or raised. *)
Definition final {A} (r : result (list Room) A) : store :=
  match r with Ok _ w => w | Raise _ w => w end.

Definition returned {A} (r : result (list Room) A) : bool :=
  match r with Ok _ _ => true | Raise _ _ => false end.

End Hotel.

(** ** Feature lists of any content *)

Module Dyn.
Import PyStr Py Hotel.

(** A [Room] object as Python holds it: its [features] are the list
    [add_room] was given, whatever the elements. *)
Record DRoom := mkDRoom {
  d_room_number : string;
  d_features : list pyobj;
  d_is_allocated : bool;
  d_customer_name : string
}.

Abbreviation dstore := (world (list DRoom)).

(** [type(v).__name__] *)
Definition type_name (v : pyobj) : string :=
  match v with
  | ObjNone => "NoneType"
  | ObjBool _ => "bool"
  | ObjInt _ => "int"
  | ObjStr _ => "str"
  | ObjTuple _ => "tuple"
  | ObjList _ => "list"
  | ObjOther name => name
  end.

(** [str(i)] for an index *)
Definition decimal (i : nat) : string :=
  DecimalString.NilZero.string_of_uint (Nat.to_uint i).

(** The [TypeError] of [str.join] at item [i]. *)
Definition join_error (i : nat) (v : pyobj) : exn :=
  Exn TypeError ("sequence item " +:+ decimal i +:+ ": expected str instance, "
                 +:+ type_name v +:+ " found").

(** The items as [str.join] takes them, counting from [i]: all of them when
    each is a str, else the error at the first that is not. *)
Fixpoint strs_from (i : nat) (items : list pyobj) : list string + exn :=
  match items with
  | [] => inl []
  | ObjStr s :: rest =>
      match strs_from (S i) rest with
      | inl l => inl (s :: l)
      | inr e => inr e
      end
  | v :: _ => inr (join_error i v)
  end.

(** The text [save_data] formats for one room, or the [TypeError] of its
    [','.join(room.features)]. *)
Definition record_line_any (room : DRoom) : string + exn :=
  match strs_from 0 (d_features room) with
  | inl l =>
      inl (d_room_number room +:+ "|" +:+ join "," l +:+ "|"
           +:+ str_of_bool (d_is_allocated room) +:+ "|" +:+ d_customer_name room
           +:+ String LF "")
  | inr e => inr e
  end.

(** The loop of [save_data]: what it has written when it ends, and the
    exception that ends it, if any. *)
Fixpoint written_any (l : list DRoom) : string * option exn :=
  match l with
  | [] => ("", None)
  | room :: rest =>
      match record_line_any room with
      | inl line => let (text, e) := written_any rest in (line +:+ text, e)
      | inr e => ("", Some e)
      end
  end.

(** [save_data]: the file is closed with what was written before the
    exception, which no handler of [save_data] takes. *)
Definition save_data_any : M (list DRoom) unit :=
  try_except
    (l ← get_self;
     let (text, e) := written_any l in
     write_file file_name text;;
     match e with
     | Some e => raise e
     | None => mret tt
     end)
    [(IOError, "IOError caught: ")].

Definition add_room_any (number : string) (feats : pyobj) : M (list DRoom) unit :=
  try_except
    (match feats with
     | ObjList items =>
         (l ← get_self; set_self (l ++ [mkDRoom number items false ""]));;
         save_data_any;;
         print ("Room " +:+ number +:+ " is successfully added.")
     | _ => raise (Exn TypeError "Features should be a list.")
     end)
    [(ValueError, "ValueError caught: ");
     (TypeError, "TypeError caught: ")].

Definition save_room_allocation_to_file_any : M (list DRoom) unit :=
  try_except
    (save_data_any;;
     print "Room allocation saved to file.")
    [(IOError, "IOError caught: ")].

(** The rooms and stores of [Hotel] among these. *)
Definition as_pyobj (a : features_arg) : pyobj :=
  match a with
  | PyNone => ObjNone
  | PyBool b => ObjBool b
  | PyInt n => ObjInt n
  | PyString s => ObjStr s
  | PyTuple items => ObjTuple (map ObjStr items)
  | PyList items => ObjList (map ObjStr items)
  end.

Definition loose_room (room : Room) : DRoom :=
  mkDRoom (room_number room) (map ObjStr (features room))
          (is_allocated room) (customer_name room).

Definition loose (w : store) : dstore :=
  World (map loose_room (rooms w)) (files w) (trace w).

(** The state in which a call ends. *)
Definition final_any {A} (r : result (list DRoom) A) : dstore :=
  match r with Ok _ w => w | Raise _ w => w end.

Definition loose_result (r : result (list Room) unit) : result (list DRoom) unit :=
  match r with
  | Ok a w => Ok a (loose w)
  | Raise e w => Raise e (loose w)
  end.

End Dyn.

(** ** Vocabulary of the properties *)

Module Props.
Import PyStr Py Hotel.

(** The allocation invariant of one room. *)
Definition room_inv (room : Room) : Prop :=
  (is_allocated room = true -> customer_name room ≠ "")
  ∧ (is_allocated room = false -> customer_name room = "").

(** A call that does not allocate to the empty name. *)
Definition names_customer (c : call) : Prop :=
  match c with
  | AllocateRoom _ customer => customer ≠ ""
  | BillAndDeallocate _ => True
  end.

(** The number of fields [load_data] finds on a line. *)
Definition field_count (line : string) : nat :=
  length (split pipe (strip line)).

(** The room [load_data] builds from a line that has its four fields
    (lines 66 to 69 of the source, on the path without exception). *)
Definition room_of_line (line : string) : Room :=
  let parts := split pipe (strip line) in
  mkRoom (nth 0 parts "") (split comma (nth 1 parts ""))
         (String.eqb (nth 2 parts "") "True") (nth 3 parts "").

(** No field or record delimiter in a string. *)
Definition delimiter_free (s : string) : bool :=
  negb (contains pipe s) && negb (contains comma s).

(** No character that the text layer reads as a line end. *)
Definition line_break_free (s : string) : bool :=
  negb (contains LF s) && negb (contains CR s).

(** The strings of a room hold no ['|'] and no [',']. *)
Definition room_delimiter_free (room : Room) : bool :=
  delimiter_free (room_number room)
  && forallb delimiter_free (features room)
  && delimiter_free (customer_name room).

(** What the text format needs beyond that: at least one feature, no line
    end inside a string, and no white space where the record begins or
    ends. *)
Definition room_line_safe (room : Room) : bool :=
  negb (bool_decide (features room = []))
  && line_break_free (room_number room)
  && forallb line_break_free (features room)
  && line_break_free (customer_name room)
  && negb (starts_with_space (room_number room))
  && negb (ends_with_space (customer_name room)).

(** A record as [save_data] formats it, before the newline. *)
Definition record_body (room : Room) : string :=
  room_number room +:+ "|" +:+ join "," (features room) +:+ "|"
  +:+ str_of_bool (is_allocated room) +:+ "|" +:+ customer_name room.

(** The rooms of a new [HotelManagementSystem] that finds the file a store
    holding [l] has saved. *)
Definition reloaded (l : list Room) : list Room :=
  rooms (final (new (files (final (save_data (World l ∅ [])))))).

(** Rooms free of delimiters that come back from the file as other
    rooms. *)
Definition reloads_as (l l' : list Room) : Prop :=
  Forall (fun room => room_delimiter_free room = true) l
  ∧ reloaded l = l' ∧ l' ≠ l.

End Props.

(** ** Reports, backup as text, and the commands of a session *)

Module Reports.
Import PyStr Py Hotel Props.

(** [Room.__str__] *)
Definition Room_str (room : Room) : string :=
  "Room " +:+ room_number room +:+ " - Features: "
  +:+ join ", " (features room) +:+ " - Allocated: "
  +:+ str_of_bool (is_allocated room) +:+ " - Customer: "
  +:+ customer_name room.

Definition display_room_details : St unit :=
  try_except
    (l ← get_self;
     for_each (fun room => print (Room_str room)) l)
    [(Exception, "An error occurred while displaying room details: ")].

Definition display_room_allocation_details : St unit :=
  try_except
    (l ← get_self;
     for_each (fun room => if is_allocated room then print (Room_str room)
                           else mret tt) l)
    [(Exception, "An error occurred while displaying room allocation details: ")].

(** [str(e)] of the [FileNotFoundError] for the backing file. *)
Definition not_found_message : string :=
  "[Errno 2] No such file or directory: '" +:+ file_name +:+ "'".

Definition show_room_allocation_from_file : St unit :=
  try_except
    (text ← read_text file_name;
     print text)
    [(FileNotFoundError, "FileNotFoundError caught: ");
     (EOFError, "EOFError caught: ")].

(** [backup_file], under the name the reports and the menu use: what is
    written to the backup is [file.read()], the content under universal
    newlines. *)
Definition backup_file_text (now : datetime) : St unit := backup_file now.

(** The operations the menu offers, with their arguments. *)
Inductive command :=
| CmdAdd (number : string) (feats : features_arg)
| CmdDelete (number : string)
| CmdDisplay
| CmdAllocate (number customer : string)
| CmdDisplayAllocation
| CmdBill (number : string)
| CmdSave
| CmdShow
| CmdBackup (now : datetime).

Definition execute (c : command) : St unit :=
  match c with
  | CmdAdd number feats => add_room number feats
  | CmdDelete number => delete_room number
  | CmdDisplay => display_room_details
  | CmdAllocate number customer => allocate_room number customer
  | CmdDisplayAllocation => display_room_allocation_details
  | CmdBill number => bill_and_deallocate number
  | CmdSave => save_room_allocation_to_file
  | CmdShow => show_room_allocation_from_file
  | CmdBackup now => backup_file_text now
  end.

Definition session (cs : list command) : St unit := for_each execute cs.

Definition is_backup (c : command) : bool :=
  match c with CmdBackup _ => true | _ => false end.

(** What a call other than a backup does to the store besides printing:
    nothing, or a rewrite of the backing file from the rooms it leaves. *)
Definition only_prints (w w' : store) : Prop :=
  rooms w' = rooms w ∧ files w' = files w.

Definition rewrites_file (w w' : store) : Prop :=
  files w' = <[file_name := written (rooms w')]> (files w).

(** A file name that no backup of the session is written to. *)
Definition not_a_backup_of (name : string) (c : command) : Prop :=
  match c with
  | CmdBackup now => name ≠ backup_filename now
  | _ => True
  end.

(** The backing file holds the records of the rooms in memory. *)
Definition in_sync (w : store) : Prop :=
  files w !! file_name = Some (written (rooms w)).

(** The lines [load_data] gets through: those before the first one with
    fewer than four fields. *)
Fixpoint loadable (lines : list string) : list string :=
  match lines with
  | [] => []
  | line :: rest =>
      if 4 <=? field_count line then line :: loadable rest else []
  end.

Definition all_loadable (lines : list string) : bool :=
  forallb (fun line => 4 <=? field_count line) lines.

(** A string that can stand in a record: no ['|'] and no line end. *)
Definition text_safe (s : string) : bool :=
  negb (contains pipe s) && line_break_free s.

(** A room whose record is read back as one line: the room number and the
    features are [text_safe], the customer name holds no line end, the room
    number does not begin and the customer name does not end with white
    space.  Commas are allowed, and so is an empty feature list. *)
Definition room_record_safe (room : Room) : bool :=
  text_safe (room_number room)
  && forallb text_safe (features room)
  && line_break_free (customer_name room)
  && negb (starts_with_space (room_number room))
  && negb (ends_with_space (customer_name room)).

(** Such a room whose customer name holds no ['|'] either. *)
Definition room_text_safe (room : Room) : bool :=
  room_record_safe room && negb (contains pipe (customer_name room)).

(** A room as the file gives it back: the feature list joined by commas
    and split again, the customer name up to its first ['|']. *)
Definition reread (room : Room) : Room :=
  mkRoom (room_number room) (split comma (join "," (features room)))
         (is_allocated room) (hd "" (split pipe (customer_name room))).

(** The fields of a date that [strftime] prints in full. *)
Definition in_range (d : datetime) : Prop :=
  year d < 10 ^ 4 ∧ month d < 10 ^ 2 ∧ day d < 10 ^ 2
  ∧ hour d < 10 ^ 2 ∧ minute d < 10 ^ 2 ∧ second d < 10 ^ 2.

End Reports.

(** ** The menu loop *)

Module Menu.
Import PyStr Py Hotel Reports.

(** The state of [main]: the store with its files and console output, the
    lines [input] has yet to return, the number of clock readings so far,
    and each prompt [input] has written, with the number of events that
    came before it. *)
Record terminal := Terminal {
  sys : store;
  stdin : list string;
  ticks : nat;
  asked : list (nat * string)
}.

Inductive outcome (A : Type) :=
| Done (a : A) (t : terminal)
| Uncaught (e : exn) (t : terminal).
Global Arguments Done {A} a t.
Global Arguments Uncaught {A} e t.

Definition Tm (A : Type) : Type := terminal -> outcome A.

Global Instance Tm_ret : MRet Tm := fun A a t => Done a t.
Global Instance Tm_bind : MBind Tm :=
  fun A B k m t => match m t with
                   | Done a t' => k a t'
                   | Uncaught e t' => Uncaught e t'
                   end.

Definition eof_error : exn := Exn EOFError "EOF when reading a line".

(** [input(prompt)]: at the end of the input it raises [EOFError]. *)
Definition input (prompt : string) : Tm string :=
  fun t =>
    let log := asked t ++ [(length (trace (sys t)), prompt)] in
    match stdin t with
    | [] => Uncaught eof_error (Terminal (sys t) [] (ticks t) log)
    | line :: rest => Done line (Terminal (sys t) rest (ticks t) log)
    end.

(** A method call on [system], or a [print] of [main] itself. *)
Definition invoke (m : St unit) : Tm unit :=
  fun t =>
    match m (sys t) with
    | Ok _ w => Done tt (Terminal w (stdin t) (ticks t) (asked t))
    | Raise e w => Uncaught e (Terminal w (stdin t) (ticks t) (asked t))
    end.

Definition say (line : string) : Tm unit := invoke (print line).

(** [datetime.now()], the [k]-th reading being [clock k]. *)
Definition datetime_now (clock : nat -> datetime) : Tm datetime :=
  fun t => Done (clock (ticks t))
             (Terminal (sys t) (stdin t) (S (ticks t)) (asked t)).

Definition print_menu : Tm unit :=
  say (String LF "Hotel Management System Menu");;
  say "1. Add Room";;
  say "2. Delete Room";;
  say "3. Display Room Details";;
  say "4. Allocate Room";;
  say "5. Display Room Allocation Details";;
  say "6. Billing & De-Allocation";;
  say "7. Save Room Allocation to File";;
  say "8. Show Room Allocation from File";;
  say "9. Backup Room Allocation File";;
  say "0. Exit Application".

(** The lines [print_menu] shows. *)
Definition menu_lines : list event :=
  [EvPrint (String LF "Hotel Management System Menu");
   EvPrint "1. Add Room";
   EvPrint "2. Delete Room";
   EvPrint "3. Display Room Details";
   EvPrint "4. Allocate Room";
   EvPrint "5. Display Room Allocation Details";
   EvPrint "6. Billing & De-Allocation";
   EvPrint "7. Save Room Allocation to File";
   EvPrint "8. Show Room Allocation from File";
   EvPrint "9. Backup Room Allocation File";
   EvPrint "0. Exit Application"].

(** The choices the menu knows. *)
Definition known_choice (choice : string) : bool :=
  bool_decide (choice ∈ ["0"; "1"; "2"; "3"; "4"; "5"; "6"; "7"; "8"; "9"]).

(** The [try] of the loop body, with its two handlers. *)
Definition try_main (body : Tm bool) : Tm bool :=
  fun t =>
    match body t with
    | Done b t' => Done b t'
    | Uncaught e t' =>
        match select_handler e [(ValueError, "ValueError caught in main: ");
                                (TypeError, "TypeError caught in main: ")] with
        | Some prefix => (say (prefix +:+ exn_msg e);; mret false) t'
        | None => Uncaught e t'
        end
    end.

(** The action of a menu choice; [true] stands for [break]. *)
Definition dispatch (clock : nat -> datetime) (choice : string) : Tm bool :=
  if String.eqb choice "1" then
    number ← input "Enter room number: ";
    feats ← input "Enter room features (comma-separated): ";
    invoke (add_room number (PyList (split comma feats)));;
    mret false
  else if String.eqb choice "2" then
    number ← input "Enter room number to delete: ";
    invoke (delete_room number);;
    mret false
  else if String.eqb choice "3" then
    invoke display_room_details;; mret false
  else if String.eqb choice "4" then
    number ← input "Enter room number to allocate: ";
    customer ← input "Enter customer name: ";
    invoke (allocate_room number customer);;
    mret false
  else if String.eqb choice "5" then
    invoke display_room_allocation_details;; mret false
  else if String.eqb choice "6" then
    number ← input "Enter room number to bill and deallocate: ";
    invoke (bill_and_deallocate number);;
    mret false
  else if String.eqb choice "7" then
    invoke save_room_allocation_to_file;; mret false
  else if String.eqb choice "8" then
    invoke show_room_allocation_from_file;; mret false
  else if String.eqb choice "9" then
    now ← datetime_now clock;
    invoke (backup_file_text now);;
    mret false
  else if String.eqb choice "0" then
    mret true
  else
    say "Invalid choice, please try again.";; mret false.

(** One turn of [while True]. *)
Definition menu_once (clock : nat -> datetime) : Tm bool :=
  print_menu;;
  choice ← input "Enter your choice: ";
  try_main (dispatch clock choice).

(** The loop, for at most [fuel] turns; [None] when they are used up. *)
Fixpoint main_loop (clock : nat -> datetime) (fuel : nat) (t : terminal)
  : option (outcome unit) :=
  match fuel with
  | O => None
  | S fuel' =>
      match menu_once clock t with
      | Done true t' => Some (Done tt t')
      | Done false t' => main_loop clock fuel' t'
      | Uncaught e t' => Some (Uncaught e t')
      end
  end.

(** [main()] in a directory holding [fs], reading [lines]. *)
Definition main (clock : nat -> datetime) (fuel : nat)
    (fs : gmap string string) (lines : list string) : option (outcome unit) :=
  match new fs with
  | Ok _ w => main_loop clock fuel (Terminal w lines 0 [])
  | Raise e w => Some (Uncaught e (Terminal w lines 0 []))
  end.

End Menu.

(** ** Properties of the store *)

Import PyStr Py Hotel Props.

(** Unfold a method down to the primitive effects. *)
Ltac exec :=
  unfold try_except, mbind, M_bind, mret, M_ret, bind, ret; simpl.

Ltac open_store w :=
  let l := fresh "l" in
  let fs := fresh "fs" in
  let tr := fresh "tr" in
  destruct w as [l fs tr]; unfold rooms in *; simpl in *.

(** *** The primitives on small inputs *)

Example split_record :
  split pipe "101|wifi,ac|True|Alice" = ["101"; "wifi,ac"; "True"; "Alice"].
Proof. reflexivity. Qed.

Example split_empty : split comma "" = [""].
Proof. reflexivity. Qed.

Example strip_blank_line : split pipe (strip (String LF "")) = [""].
Proof. reflexivity. Qed.

Example readlines_mixed_ends :
  readlines ("a" +:+ String CR ("b" +:+ String CR (String LF "c")))
  = ["a" +:+ String LF ""; "b" +:+ String LF ""; "c"].
Proof. reflexivity. Qed.

Example backup_filename_format :
  backup_filename (mkDatetime 2024 6 26 9 5 0)
  = "LHMS_764708175_Backup_20240626_090500.txt".
Proof. reflexivity. Qed.

(** The constructor in an empty directory creates the file and loads
    nothing. *)
Example new_in_empty_directory :
  new ∅ = Ok tt (World [] {[ file_name := "" ]} [EvWrite file_name ""]).
Proof. reflexivity. Qed.

(** *** Scanning a list for its first match *)

Section Scans.
Context {A : Type} (P : A -> Prop) `{!∀ x, Decision (P x)}.

Lemma list_find_first (pre post : list A) (x : A) :
  Forall (fun y => ¬ P y) pre -> P x ->
  list_find P (pre ++ x :: post) = Some (length pre, x).
Proof.
  intros Hpre Hx. induction Hpre as [|y pre Hy _ IH]; simpl.
  - by rewrite decide_True.
  - rewrite decide_False by done. by rewrite IH.
Qed.

Lemma list_find_none (l : list A) :
  Forall (fun y => ¬ P y) l -> list_find P l = None.
Proof. intros Hl. by apply list_find_None. Qed.

Lemma alter_middle (f : A -> A) (pre post : list A) (x : A) :
  alter f (length pre) (pre ++ x :: post) = pre ++ f x :: post.
Proof.
  rewrite <- (Nat.add_0_r (length pre)). by rewrite alter_app_r.
Qed.
End Scans.

(** *** Allocation *)

(** C5. When the first room carrying the requested number is already
    allocated, [allocate_room] prints the conflict message and changes
    nothing else: rooms and files are as before, whoever the occupant is.
    In every case the rooms before and after the first match, duplicates of
    the number included, are left as they were. *)
Theorem allocate_room_first_match_only
    (w : store) (number customer : string) (pre post : list Room) (room : Room) :
  rooms w = pre ++ room :: post ->
  Forall (fun r => room_number r ≠ number) pre ->
  room_number room = number ->
  let r := allocate_room number customer w in
  returned r = true
  ∧ rooms (final r)
    = pre ++ (if is_allocated room then room
              else mkRoom (room_number room) (features room) true customer) :: post
  ∧ (is_allocated room = true ->
     final r = World (rooms w) (files w)
                 (trace w ++ [EvPrint ("Room " +:+ number +:+ " is already allocated.")])).
Proof.
  open_store w. intros -> Hpre Hroom.
  unfold allocate_room. exec.
  rewrite (list_find_first (fun r => room_number r = number)) by done.
  destruct (is_allocated room) eqn:Ha; simpl; [done|].
  by rewrite !alter_middle.
Qed.

(** The scenario of the specification: room 101 is Alice's, Bob asks for it;
    a second, free room 101 further down the list is not considered. *)
Lemma allocate_room_first_match_only_witness :
  let alice := mkRoom "101" ["wifi"] true "Alice" in
  let spare := mkRoom "101" ["ac"] false "" in
  let w := World [alice; spare] ∅ [] in
  let r := allocate_room "101" "Bob" w in
  returned r = true
  ∧ rooms (final r) = [alice; spare]
  ∧ final r = World [alice; spare] ∅ [EvPrint "Room 101 is already allocated."].
Proof.
  intros alice spare w r.
  destruct (allocate_room_first_match_only w "101" "Bob" [] [spare] alice)
    as (Hret & Hrooms & Hsame); [reflexivity | constructor | reflexivity |].
  split; [exact Hret|]. split; [exact Hrooms|]. apply Hsame. reflexivity.
Defined.

(** *** Billing *)



(** *** Deleting rooms *)

Section Delete.
Variable number : string.

Lemma keep_true (room : Room) :
  keep number room = true <-> room_number room ≠ number.
Proof.
  unfold keep. rewrite negb_true_iff. apply String.eqb_neq.
Qed.

Lemma kept_all_differ (l : list Room) :
  Forall (fun room => room_number room ≠ number) (List.filter (keep number) l).
Proof.
  apply Forall_forall. intros room Hin.
  apply list_elem_of_In, filter_In in Hin. apply keep_true. tauto.
Qed.

Lemma kept_sublist (l : list Room) : sublist (List.filter (keep number) l) l.
Proof.
  induction l as [|room l IH]; simpl; [constructor|].
  destruct (keep number room); by constructor.
Qed.

Lemma kept_length (l : list Room) :
  length (List.filter (keep number) l)
  + length (filter (fun room => room_number room = number) l)
  = length l.
Proof.
  induction l as [|room l IH]; [done|].
  simpl. rewrite filter_cons. destruct (keep number room) eqn:Hk.
  - apply keep_true in Hk. rewrite decide_False by done. simpl in *. lia.
  - destruct (decide (room_number room = number)) as [_|Hne]; [simpl; lia|].
    apply keep_true in Hne. congruence.
Qed.

Lemma kept_id (l : list Room) :
  Forall (fun room => room_number room ≠ number) l -> List.filter (keep number) l = l.
Proof.
  induction 1 as [|room l Hr _ IH]; [done|].
  simpl. apply keep_true in Hr. by rewrite Hr, IH.
Qed.

Lemma delete_room_run (w : store) :
  let l' := List.filter (keep number) (rooms w) in
  delete_room number w
  = Ok tt (World l' (<[file_name := written l']> (files w))
             (trace w ++ [EvWrite file_name (written l');
                          EvPrint ("Room " +:+ number +:+ " is successfully deleted.")])).
Proof.
  open_store w. unfold delete_room. exec. by rewrite <- app_assoc.
Qed.
End Delete.

(** C7. [delete_room] returns normally and keeps exactly the rooms whose
    number differs from the one given, in their original order: no room with
    that number is left, what is left is a subsequence of the old list, and
    as many rooms went as carried the number.  Without a match the list is
    unchanged. *)
Theorem delete_room_removes_every_match (w : store) (number : string) :
  let r := delete_room number w in
  let l' := rooms (final r) in
  returned r = true
  ∧ Forall (fun room => room_number room ≠ number) l'
  ∧ sublist l' (rooms w)
  ∧ length l' + length (filter (fun room => room_number room = number) (rooms w))
    = length (rooms w)
  ∧ (Forall (fun room => room_number room ≠ number) (rooms w) -> l' = rooms w).
Proof.
  intros r l'. subst r l'. rewrite delete_room_run. simpl. unfold rooms at 1 2 3 5.
  simpl. split; [done|]. split; [apply kept_all_differ|].
  split; [apply kept_sublist|]. split; [apply kept_length|]. apply kept_id.
Qed.

(** Two rooms 12A around a room 7; then a number nobody has. *)
Lemma delete_room_removes_every_match_witness :
  let a := mkRoom "12A" ["wifi"; "ac"] false "" in
  let b := mkRoom "7" ["tv"] true "Eve" in
  let c := mkRoom "12A" [] true "Dan" in
  let d := mkRoom "8" ["tv"] false "" in
  rooms (final (delete_room "12A" (World [a; b; c; d] ∅ []))) = [b; d]
  ∧ rooms (final (delete_room "40" (World [a; b; c; d] ∅ []))) = [a; b; c; d].
Proof.
  intros a b c d. split; [reflexivity|].
  apply (delete_room_removes_every_match (World [a; b; c; d] ∅ []) "40").
  repeat constructor; discriminate.
Defined.



(** *** Adding rooms *)

Lemma strs_from_strs (i : nat) (l : list string) :
  Dyn.strs_from i (map ObjStr l) = inl l.
Proof.
  revert i. induction l as [|s l IH]; intros i; [done|].
  simpl. by rewrite IH.
Qed.

Lemma record_line_any_loose (room : Room) :
  Dyn.record_line_any (Dyn.loose_room room) = inl (record_line room).
Proof.
  unfold Dyn.record_line_any, Dyn.loose_room. simpl. by rewrite strs_from_strs.
Qed.

Lemma written_any_loose (l : list Room) :
  Dyn.written_any (map Dyn.loose_room l) = (written l, None).
Proof.
  induction l as [|room l IH]; [done|].
  cbn [map Dyn.written_any written]. by rewrite record_line_any_loose, IH.
Qed.

Lemma written_any_ill_typed (l : list Room) (number : string)
    (items : list pyobj) (e : exn) :
  Dyn.strs_from 0 items = inr e ->
  Dyn.written_any (map Dyn.loose_room l ++ [Dyn.mkDRoom number items false ""])
  = (written l, Some e).
Proof.
  intros Hitems. induction l as [|room l IH].
  - simpl. unfold Dyn.record_line_any. simpl. by rewrite Hitems.
  - cbn [map app Dyn.written_any written]. by rewrite record_line_any_loose, IH.
Qed.

Lemma strs_from_error_class (i : nat) (items : list pyobj) (e : exn) :
  Dyn.strs_from i items = inr e -> exn_cls e = TypeError.
Proof.
  revert i. induction items as [|v items IH]; intros i Hi; [discriminate|].
  destruct v; simpl in Hi; try (by injection Hi as <-).
  destruct (Dyn.strs_from (S i) items) eqn:Hrest; [discriminate|].
  injection Hi as <-. by apply (IH (S i)).
Qed.

(** On a store of [Hotel] the two models of [save_data] do the same. *)
Lemma save_data_agrees (w : store) :
  Dyn.save_data_any (Dyn.loose w) = Dyn.loose_result (save_data w).
Proof.
  open_store w. unfold Dyn.save_data_any, Dyn.loose, rooms. exec.
  by rewrite written_any_loose.
Qed.

(** And on a store and an argument of [Hotel] the two models of [add_room]
    do the same. *)
Lemma add_room_agrees (w : store) (number : string) (feats : features_arg) :
  Dyn.add_room_any number (Dyn.as_pyobj feats) (Dyn.loose w)
  = Dyn.loose_result (add_room number feats w).
Proof.
  open_store w. unfold Dyn.add_room_any, Dyn.save_data_any, Dyn.loose, rooms.
  destruct feats; try reflexivity.
  unfold add_room. exec.
  change [Dyn.mkDRoom number (map ObjStr items) false ""]
    with (map Dyn.loose_room [mkRoom number items false ""]).
  rewrite <- map_app, written_any_loose. simpl.
  by rewrite <- !app_assoc.
Qed.

(** C8, as the code has it.  [add_room] with anything but a list prints
    the [TypeError] message and leaves rooms and files as they were,
    whatever the store holds.  With a list of strings, on a store of rooms
    with string features, it appends one room, free and without customer,
    at the end of the list, whatever numbers the list already holds,
    rewrites the file from the new list and prints its success message.
    With a list that holds a value of another type it appends the room all
    the same; [save_data] then writes the records of the rooms before it and
    stops at the [TypeError] of [','.join], which [add_room] prints in place
    of the success message. *)
Theorem add_room_checks_type_only
    (w : store) (d : Dyn.dstore) (number : string) (feats : pyobj) :
  (isinstance_list feats = false ->
   Dyn.add_room_any number feats d
   = Ok tt (World (self d) (files d)
              (trace d ++ [EvPrint "TypeError caught: Features should be a list."])))
  ∧ (forall items, feats = ObjList (map ObjStr items) ->
       let l' := rooms w ++ [mkRoom number items false ""] in
       Dyn.add_room_any number feats (Dyn.loose w)
       = Ok tt (Dyn.loose
                  (World l' (<[file_name := written l']> (files w))
                     (trace w ++ [EvWrite file_name (written l');
                                  EvPrint ("Room " +:+ number
                                           +:+ " is successfully added.")]))))
  ∧ (forall items e, feats = ObjList items -> Dyn.strs_from 0 items = inr e ->
       Dyn.add_room_any number feats (Dyn.loose w)
       = Ok tt (World (map Dyn.loose_room (rooms w)
                       ++ [Dyn.mkDRoom number items false ""])
                  (<[file_name := written (rooms w)]> (files w))
                  (trace w ++ [EvWrite file_name (written (rooms w));
                               EvPrint ("TypeError caught: " +:+ exn_msg e)]))).
Proof.
  split; [|split].
  - intros Hty. destruct d as [l fs tr]. by destruct feats.
  - intros items ->. cbv zeta.
    change (ObjList (map ObjStr items)) with (Dyn.as_pyobj (PyList items)).
    rewrite add_room_agrees.
    open_store w. unfold add_room. exec. by rewrite <- app_assoc.
  - intros items e -> Hitems. open_store w.
    unfold Dyn.add_room_any, Dyn.save_data_any, Dyn.loose, rooms. exec.
    rewrite (written_any_ill_typed l number items e Hitems). simpl.
    pose proof (strs_from_error_class 0 items e Hitems) as Hcls.
    rewrite Hcls. simpl. rewrite Hcls. unfold print, emit. simpl.
    by rewrite <- app_assoc.
Qed.

(** A string in place of the list, then a second room with a number that is
    already taken, then a list that holds a number. *)
Lemma add_room_checks_type_only_witness :
  let old := mkRoom "12A" ["wifi"] true "Dan" in
  let w := World [old] ∅ [] in
  Dyn.add_room_any "3" (ObjStr "wifi,ac") (Dyn.loose w)
  = Ok tt (World [Dyn.loose_room old] ∅
             [EvPrint "TypeError caught: Features should be a list."])
  ∧ self (Dyn.final_any (Dyn.add_room_any "12A" (ObjList [ObjStr "ac"]) (Dyn.loose w)))
    = [Dyn.loose_room old; Dyn.loose_room (mkRoom "12A" ["ac"] false "")]
  ∧ trace (Dyn.final_any (Dyn.add_room_any "4" (ObjList [ObjStr "ac"; ObjInt 2]) (Dyn.loose w)))
    = [EvWrite file_name (written [old]);
       EvPrint "TypeError caught: sequence item 1: expected str instance, int found"].
Proof.
  intros old w. split; [|split].
  - apply (proj1 (add_room_checks_type_only w (Dyn.loose w) "3" (ObjStr "wifi,ac"))).
    reflexivity.
  - destruct (add_room_checks_type_only w (Dyn.loose w) "12A" (ObjList [ObjStr "ac"]))
      as (_ & Hlist & _).
    by rewrite (Hlist ["ac"] eq_refl).
  - destruct (add_room_checks_type_only w (Dyn.loose w) "4" (ObjList [ObjStr "ac"; ObjInt 2]))
      as (_ & _ & Hmixed).
    by rewrite (Hmixed [ObjStr "ac"; ObjInt 2] (Dyn.join_error 1 (ObjInt 2)) eq_refl eq_refl).
Defined.

(** C8, as stated, fails.  A list that holds the number 1 passes the type
    check: the room is appended, and then [save_data] can write the record
    of the old room only.  Memory holds two rooms, the file one, and what is
    reported is an error that came after the mutation.  On the store this
    leaves, a list of strings is appended and not saved either. *)
Lemma add_room_appends_what_it_cannot_save :
  let old := mkRoom "7" ["tv"] false "" in
  let w := World [old] ∅ [] in
  let bad := Dyn.mkDRoom "1" [ObjInt 1] false "" in
  let failed :=
    EvPrint "TypeError caught: sequence item 0: expected str instance, int found" in
  let d1 := World [Dyn.loose_room old; bad] {[ file_name := record_line old ]}
              [EvWrite file_name (record_line old); failed] in
  isinstance_list (ObjList [ObjInt 1]) = true
  ∧ Dyn.add_room_any "1" (ObjList [ObjInt 1]) (Dyn.loose w) = Ok tt d1
  ∧ Dyn.record_line_any bad = inr (Dyn.join_error 0 (ObjInt 1))
  ∧ Dyn.add_room_any "2" (ObjList [ObjStr "ac"]) d1
    = Ok tt (World [Dyn.loose_room old; bad; Dyn.mkDRoom "2" [ObjStr "ac"] false ""]
               {[ file_name := record_line old ]}
               (trace d1 ++ [EvWrite file_name (record_line old); failed])).
Proof. intros old w bad failed d1. repeat split; reflexivity. Qed.

(** X23. A room made from a list that holds a value of another type
    cannot be saved.  After [add_room] has appended it to a store of rooms
    with string features, [save_room_allocation_to_file] writes the records
    of the rooms before it and then lets the [TypeError] of [','.join] out:
    its only handler is for [IOError], and its message is not printed. *)
Theorem ill_typed_room_blocks_saving
    (w : store) (number : string) (items : list pyobj) (e : exn) :
  Dyn.strs_from 0 items = inr e ->
  let d := Dyn.final_any (Dyn.add_room_any number (ObjList items) (Dyn.loose w)) in
  self d = map Dyn.loose_room (rooms w) ++ [Dyn.mkDRoom number items false ""]
  ∧ Dyn.save_room_allocation_to_file_any d
    = Raise e (World (self d) (<[file_name := written (rooms w)]> (files d))
                 (trace d ++ [EvWrite file_name (written (rooms w))]))
  ∧ exn_cls e = TypeError.
Proof.
  intros Hitems. pose proof (strs_from_error_class 0 items e Hitems) as Hcls.
  open_store w.
  unfold Dyn.add_room_any, Dyn.save_room_allocation_to_file_any, Dyn.save_data_any,
    Dyn.loose, rooms.
  exec. rewrite (written_any_ill_typed l number items e Hitems). simpl.
  rewrite Hcls. simpl. rewrite Hcls. unfold print, emit. simpl.
  rewrite (written_any_ill_typed l number items e Hitems). simpl.
  repeat (rewrite Hcls; simpl). done.
Qed.

Lemma ill_typed_room_blocks_saving_witness :
  let old := mkRoom "7" ["tv"] false "" in
  let w := World [old] ∅ [] in
  let d := Dyn.final_any (Dyn.add_room_any "1" (ObjList [ObjInt 1]) (Dyn.loose w)) in
  Dyn.save_room_allocation_to_file_any d
  = Raise (Dyn.join_error 0 (ObjInt 1))
      (World (self d) (<[file_name := written [old]]> (files d))
         (trace d ++ [EvWrite file_name (written [old])])).
Proof.
  intros old w d.
  apply (ill_typed_room_blocks_saving w "1" [ObjInt 1] (Dyn.join_error 0 (ObjInt 1))).
  reflexivity.
Defined.

(** *** Saving *)


(** *** Backup *)

Lemma backup_filename_fresh (now : datetime) : backup_filename now ≠ file_name.
Proof. unfold backup_filename, file_name. simpl. discriminate. Qed.

Lemma written_nonempty (l : list Room) : l ≠ [] -> written l ≠ "".
Proof.
  destruct l as [|room l]; [done|]. intros _. simpl. unfold record_line.
  destruct (room_number room); simpl; discriminate.
Qed.

(** *** The allocation invariant *)

Lemma room_inv_allocated (customer : string) (room : Room) :
  customer ≠ "" ->
  room_inv (set_customer_name customer (set_is_allocated true room)).
Proof. intros Hc. split; simpl; [done | discriminate]. Qed.

Lemma room_inv_freed (room : Room) :
  room_inv (set_customer_name "" (set_is_allocated false room)).
Proof. split; simpl; [discriminate | done]. Qed.

Lemma allocate_room_keeps_inv (w : store) (number customer : string) :
  customer ≠ "" -> Forall room_inv (rooms w) ->
  exists w', allocate_room number customer w = Ok tt w' ∧ Forall room_inv (rooms w').
Proof.
  open_store w. intros Hc Hinv. unfold allocate_room. exec.
  destruct (list_find _ l) as [[i room]|]; [|by eexists].
  destruct (is_allocated room); simpl; [by eexists|].
  eexists. split; [done|]. simpl. rewrite list_alter_alter_eq.
  apply Forall_alter; [done|]. intros x _ _. by apply room_inv_allocated.
Qed.

Lemma bill_and_deallocate_keeps_inv (w : store) (number : string) :
  Forall room_inv (rooms w) ->
  exists w', bill_and_deallocate number w = Ok tt w' ∧ Forall room_inv (rooms w').
Proof.
  open_store w. intros Hinv. unfold bill_and_deallocate. exec.
  destruct (list_find _ l) as [[i room]|]; [|by eexists].
  simpl. eexists. split; [done|]. simpl. rewrite list_alter_alter_eq.
  apply Forall_alter; [done|]. intros x _ _. apply room_inv_freed.
Qed.

(** C3, as the code has it.  From a store whose rooms satisfy the
    invariant, any sequence of [allocate_room] and [bill_and_deallocate]
    calls that never allocates to the empty name runs to its end and leaves
    every room either allocated with a non-empty customer name or free with
    the empty one. *)
Theorem allocation_invariant_preserved (w : store) (calls : list call) :
  Forall room_inv (rooms w) ->
  Forall names_customer calls ->
  returned (run calls w) = true
  ∧ Forall room_inv (rooms (final (run calls w))).
Proof.
  intros Hinv Hcalls. revert w Hinv.
  induction Hcalls as [|c calls Hc _ IH]; intros w Hinv; [done|].
  unfold run. simpl. unfold bind.
  assert (exists w', perform c w = Ok tt w' ∧ Forall room_inv (rooms w'))
    as (w' & -> & Hinv').
  { destruct c as [number customer|number]; simpl in *.
    - by apply allocate_room_keeps_inv.
    - by apply bill_and_deallocate_keeps_inv. }
  by apply IH.
Qed.

Lemma allocation_invariant_preserved_witness :
  let w := World [mkRoom "101" ["wifi"] false ""; mkRoom "102" [] true "Eve"] ∅ [] in
  let calls := [AllocateRoom "101" "Alice"; AllocateRoom "101" "Bob";
                BillAndDeallocate "102"; BillAndDeallocate "7";
                AllocateRoom "102" "Bob"; BillAndDeallocate "101"] in
  returned (run calls w) = true
  ∧ Forall room_inv (rooms (final (run calls w))).
Proof.
  intros w calls. apply (allocation_invariant_preserved w calls).
  - repeat constructor; simpl; discriminate.
  - repeat constructor; simpl; discriminate.
Defined.

(** C3, as stated, fails.  On a store made by the constructor and one
    [add_room], allocating the room to the empty name leaves it allocated
    with an empty customer name.  And a store loaded from a file whose
    records break the invariant keeps them through the calls: [load_data]
    takes the third and fourth field as they are. *)
Lemma allocate_empty_name_breaks_invariant :
  (let w := final (add_room "1" (PyList ["wifi"]) (final (new ∅))) in
   Forall room_inv (rooms w)
   ∧ rooms (final (run [AllocateRoom "1" ""] w)) = [mkRoom "1" ["wifi"] true ""]
   ∧ ¬ Forall room_inv (rooms (final (run [AllocateRoom "1" ""] w))))
  ∧ (let text := "1|wifi|True|" +:+ String LF "2|tv|False|Zed" in
     let w := final (new {[ file_name := text ]}) in
     let calls := [AllocateRoom "3" "Ann"; BillAndDeallocate "2"] in
     rooms (final (run calls w))
     = [mkRoom "1" ["wifi"] true ""; mkRoom "2" ["tv"] false "Zed"]
     ∧ ¬ Forall room_inv (rooms (final (run calls w)))).
Proof.
  split.
  - intros w. split; [|split].
    + repeat constructor; simpl; discriminate.
    + reflexivity.
    + intros Hall. apply Forall_cons in Hall as [[Hname _] _].
      by apply Hname.
  - intros text w calls. split; [reflexivity|].
    intros Hall. apply Forall_cons in Hall as [[Hname _] _].
    by apply Hname.
Qed.

(** *** Loading *)

Lemma load_line_ok (line : string) (w : store) :
  4 ≤ field_count line ->
  load_line line w
  = Ok tt (World (rooms w ++ [room_of_line line]) (files w) (trace w)).
Proof.
  open_store w. unfold field_count, load_line, room_of_line.
  destruct (split pipe (strip line)) as [|p0 [|p1 [|p2 [|p3 rest]]]];
    simpl; intros Hlen; try lia. done.
Qed.

Lemma load_line_short (line : string) (w : store) :
  field_count line < 4 -> load_line line w = Raise index_error w.
Proof.
  open_store w. unfold field_count, load_line.
  destruct (split pipe (strip line)) as [|p0 [|p1 [|p2 [|p3 rest]]]];
    simpl; intros Hlen; try lia; done.
Qed.

Lemma load_lines_ok (lines : list string) (w : store) :
  Forall (fun line => 4 ≤ field_count line) lines ->
  for_each load_line lines w
  = Ok tt (World (rooms w ++ map room_of_line lines) (files w) (trace w)).
Proof.
  intros Hok. revert w. induction Hok as [|line lines Hline _ IH]; intros w.
  - open_store w. by rewrite app_nil_r.
  - simpl. unfold bind. rewrite load_line_ok by done. rewrite IH.
    unfold rooms. simpl. by rewrite <- app_assoc.
Qed.

Lemma load_lines_stop (pre post : list string) (bad : string) (w : store) :
  Forall (fun line => 4 ≤ field_count line) pre ->
  field_count bad < 4 ->
  for_each load_line (pre ++ bad :: post) w
  = Raise index_error (World (rooms w ++ map room_of_line pre) (files w) (trace w)).
Proof.
  intros Hok Hbad. revert w. induction Hok as [|line lines Hline _ IH]; intros w.
  - simpl. unfold bind. rewrite load_line_short by done.
    open_store w. by rewrite app_nil_r.
  - simpl. unfold bind. rewrite load_line_ok by done. rewrite IH.
    unfold rooms. simpl. by rewrite <- app_assoc.
Qed.

(** C4. When the file has a line with fewer than four ['|']-separated
    fields after lines that all have four, [load_data] returns normally:
    the rooms of the lines before it are appended, in order, to the rooms
    already in memory, nothing comes from that line or from any line after
    it, and the [IndexError] shows up only as a printed message. *)
Theorem load_data_stops_at_short_line
    (w : store) (data bad : string) (pre post : list string) :
  files w !! file_name = Some data ->
  readlines data = pre ++ bad :: post ->
  Forall (fun line => 4 ≤ field_count line) pre ->
  field_count bad < 4 ->
  load_data w
  = Ok tt (World (rooms w ++ map room_of_line pre) (files w)
             (trace w ++ [EvPrint "IndexError caught: list index out of range"])).
Proof.
  intros Hdata Hlines Hpre Hbad.
  unfold load_data, try_except, mbind, M_bind, bind, read_file.
  rewrite Hdata, Hlines, load_lines_stop by done. reflexivity.
Qed.

Lemma load_data_stops_at_short_line_witness :
  let text := "1|wifi,ac|True|Al" +:+ String LF ("2|tv" +:+ String LF "3|ac|False|") in
  let w := World [] {[ file_name := text ]} [] in
  load_data w
  = Ok tt (World [mkRoom "1" ["wifi"; "ac"] true "Al"] {[ file_name := text ]}
             [EvPrint "IndexError caught: list index out of range"]).
Proof.
  intros text w.
  apply (load_data_stops_at_short_line w text ("2|tv" +:+ String LF "")
           ["1|wifi,ac|True|Al" +:+ String LF ""] ["3|ac|False|"]).
  - reflexivity.
  - reflexivity.
  - repeat constructor.
  - unfold field_count. simpl. lia.
Defined.

(** *** Strings: append, split, join, strip and lines *)

Section Strings.

Lemma append_cons (x : ascii) (a b : string) :
  String x a +:+ b = String x (a +:+ b).
Proof. reflexivity. Qed.

Lemma append_nil_l (b : string) : "" +:+ b = b.
Proof. reflexivity. Qed.

Lemma append_assoc (a b c : string) : (a +:+ b) +:+ c = a +:+ (b +:+ c).
Proof.
  induction a as [|x a IH]; [done|]. by rewrite !append_cons, IH.
Qed.

Lemma contains_app (c : ascii) (a b : string) :
  contains c (a +:+ b) = contains c a || contains c b.
Proof.
  induction a as [|x a IH]; [done|].
  rewrite append_cons. simpl. by rewrite IH, orb_assoc.
Qed.

Lemma contains_cons_false (c x : ascii) (s : string) :
  contains c (String x s) = false -> Ascii.eqb x c = false ∧ contains c s = false.
Proof. simpl. apply orb_false_elim. Qed.

Lemma split_app (sep : ascii) (a b : string) :
  contains sep a = false ->
  split sep (a +:+ String sep b) = a :: split sep b.
Proof.
  induction a as [|x a IH].
  - intros _. rewrite append_nil_l. simpl. by rewrite Ascii.eqb_refl.
  - intros [Hx Ha]%contains_cons_false.
    rewrite append_cons. simpl. by rewrite Hx, IH.
Qed.

Lemma split_whole (sep : ascii) (a : string) :
  contains sep a = false -> split sep a = [a].
Proof.
  induction a as [|x a IH]; simpl; [done|].
  intros [Hx Ha]%orb_false_elim. by rewrite Hx, IH.
Qed.

Lemma split_join (l : list string) :
  l ≠ [] ->
  Forall (fun s => contains comma s = false) l ->
  split comma (join "," l) = l.
Proof.
  intros Hne Hall. induction Hall as [|x l Hx Hl IH]; [done|].
  destruct l as [|y l].
  - by apply split_whole.
  - change (join "," (x :: y :: l)) with (x +:+ String comma (join "," (y :: l))).
    rewrite split_app by done. by rewrite IH.
Qed.

Lemma contains_join (c : ascii) (l : list string) :
  Ascii.eqb comma c = false ->
  Forall (fun s => contains c s = false) l ->
  contains c (join "," l) = false.
Proof.
  intros Hc Hall. induction Hall as [|x l Hx Hl IH]; [done|].
  destruct l as [|y l]; [done|].
  change (join "," (x :: y :: l)) with (x +:+ String comma (join "," (y :: l))).
  rewrite contains_app, Hx.
  change (contains c (String comma (join "," (y :: l))))
    with (Ascii.eqb comma c || contains c (join "," (y :: l))).
  by rewrite Hc, IH.
Qed.

Lemma universal_newlines_line (a b : string) :
  contains CR a = false ->
  universal_newlines (a +:+ String LF b) = a +:+ String LF (universal_newlines b).
Proof.
  induction a as [|x a IH]; [done|].
  intros [Hx Ha]%contains_cons_false.
  change (String x a +:+ String LF b) with (String x (a +:+ String LF b)).
  cbn [universal_newlines]. rewrite Hx. by rewrite IH.
Qed.

Lemma splitlines_keep_line (a b : string) :
  contains LF a = false ->
  splitlines_keep (a +:+ String LF b) = (a +:+ String LF "") :: splitlines_keep b.
Proof.
  induction a as [|x a IH]; [done|].
  intros [Hx Ha]%contains_cons_false.
  rewrite !append_cons. simpl. by rewrite Hx, IH.
Qed.

(** A line without CR or LF in front of its LF is one element of
    [readlines]. *)
Lemma readlines_line (a b : string) :
  contains LF a = false -> contains CR a = false ->
  readlines (a +:+ String LF b) = (a +:+ String LF "") :: readlines b.
Proof.
  intros Hlf Hcr. unfold readlines.
  by rewrite universal_newlines_line, splitlines_keep_line.
Qed.

Lemma lstrip_id (s : string) : starts_with_space s = false -> lstrip s = s.
Proof. destruct s as [|x s]; simpl; [done|]. by intros ->. Qed.

Lemma rstrip_line (a : string) :
  ends_with_space a = false -> rstrip (a +:+ String LF "") = a.
Proof.
  induction a as [|x a IH]; [done|].
  destruct a as [|y a].
  - simpl. by intros ->.
  - intros Hend. change (ends_with_space (String y a) = false) in Hend.
    specialize (IH Hend).
    change (String x (String y a) +:+ String LF "")
      with (String x (String y a +:+ String LF "")).
    cbn [rstrip]. cbv zeta. rewrite IH. done.
Qed.

Lemma ends_with_space_app (a b : string) (x : ascii) :
  ends_with_space (a +:+ String x b) = ends_with_space (String x b).
Proof.
  induction a as [|y a IH]; [done|].
  rewrite append_cons, <- IH. destruct a; reflexivity.
Qed.

Lemma starts_with_space_app (a b : string) (x : ascii) :
  starts_with_space a = false -> is_space x = false ->
  starts_with_space (a +:+ String x b) = false.
Proof. by destruct a. Qed.

(** [line.strip()] gives back a record that neither begins nor ends with
    white space. *)
Lemma strip_line (a : string) :
  starts_with_space a = false -> ends_with_space a = false ->
  strip (a +:+ String LF "") = a.
Proof.
  intros Hs He. destruct a as [|x a]; [reflexivity|].
  unfold strip. rewrite lstrip_id; [by apply rstrip_line | exact Hs].
Qed.

End Strings.

(** *** Records and their round trip through the file *)

Lemma record_line_body (room : Room) :
  record_line room = record_body room +:+ String LF "".
Proof. unfold record_line, record_body. by rewrite !append_assoc. Qed.

Lemma contains_str_of_bool (c : ascii) (b : bool) :
  contains c "True" = false -> contains c "False" = false ->
  contains c (str_of_bool b) = false.
Proof. by destruct b. Qed.

(** A character other than the two delimiters and the letters of [True]
    and [False] occurs in a record only if it occurs in a field. *)
Lemma contains_record_body (c : ascii) (room : Room) :
  Ascii.eqb pipe c = false -> Ascii.eqb comma c = false ->
  contains c "True" = false -> contains c "False" = false ->
  contains c (room_number room) = false ->
  Forall (fun s => contains c s = false) (features room) ->
  contains c (customer_name room) = false ->
  contains c (record_body room) = false.
Proof.
  intros Hp Hc Ht Hf Hn Hfs Hcn. unfold record_body.
  change "|" with (String pipe "").
  rewrite !contains_app.
  assert (contains c (String pipe "") = false) as ->
    by (change (Ascii.eqb pipe c || false = false); by rewrite Hp).
  by rewrite Hn, Hcn, contains_join, contains_str_of_bool.
Qed.

Lemma forallb_fields (f : string -> bool) (c : ascii) (l : list string) :
  (forall s, f s = true -> contains c s = false) ->
  forallb f l = true -> Forall (fun s => contains c s = false) l.
Proof.
  intros Hf Hall. apply Forall_forall. intros s Hs%list_elem_of_In.
  apply Hf. by apply (proj1 (forallb_forall f l) Hall).
Qed.

Lemma delimiter_free_pipe (s : string) :
  delimiter_free s = true -> contains pipe s = false.
Proof. unfold delimiter_free. by intros [?%negb_true_iff _]%andb_prop. Qed.

Lemma delimiter_free_comma (s : string) :
  delimiter_free s = true -> contains comma s = false.
Proof. unfold delimiter_free. by intros [_ ?%negb_true_iff]%andb_prop. Qed.

Lemma line_break_free_LF (s : string) :
  line_break_free s = true -> contains LF s = false.
Proof. unfold line_break_free. by intros [?%negb_true_iff _]%andb_prop. Qed.

Lemma line_break_free_CR (s : string) :
  line_break_free s = true -> contains CR s = false.
Proof. unfold line_break_free. by intros [_ ?%negb_true_iff]%andb_prop. Qed.

Section OneRecord.
Variable room : Room.
Hypothesis Hfree : room_delimiter_free room = true.
Hypothesis Hsafe : room_line_safe room = true.

Lemma free_fields :
  delimiter_free (room_number room) = true
  ∧ forallb delimiter_free (features room) = true
  ∧ delimiter_free (customer_name room) = true.
Proof.
  unfold room_delimiter_free in Hfree.
  by apply andb_prop in Hfree as [[? ?]%andb_prop ?].
Qed.

Lemma safe_fields :
  features room ≠ []
  ∧ line_break_free (room_number room) = true
  ∧ forallb line_break_free (features room) = true
  ∧ line_break_free (customer_name room) = true
  ∧ starts_with_space (room_number room) = false
  ∧ ends_with_space (customer_name room) = false.
Proof.
  unfold room_line_safe in Hsafe.
  apply andb_prop in Hsafe
    as [[[[[Hne%negb_true_iff ?]%andb_prop ?]%andb_prop ?]%andb_prop
         ?%negb_true_iff]%andb_prop ?%negb_true_iff].
  apply bool_decide_eq_false in Hne. done.
Qed.

Lemma record_body_no_line_end :
  contains LF (record_body room) = false ∧ contains CR (record_body room) = false.
Proof.
  destruct safe_fields as (_ & Hn & Hfs & Hc & _ & _).
  split; apply contains_record_body; try reflexivity;
    eauto using line_break_free_LF, line_break_free_CR, forallb_fields.
Qed.

Lemma strip_record_line : strip (record_line room) = record_body room.
Proof.
  destruct safe_fields as (_ & _ & _ & _ & Hs & He).
  rewrite record_line_body. apply strip_line.
  - unfold record_body. change "|" with (String pipe "") at 1.
    rewrite append_cons, append_nil_l. by apply starts_with_space_app.
  - unfold record_body. change "|" with (String pipe "").
    rewrite !append_cons, !append_nil_l.
    rewrite ends_with_space_app.
    rewrite <- append_cons, ends_with_space_app.
    rewrite <- append_cons, ends_with_space_app.
    by destruct (customer_name room).
Qed.

Lemma split_record_body :
  split pipe (record_body room)
  = [room_number room; join "," (features room);
     str_of_bool (is_allocated room); customer_name room].
Proof.
  destruct free_fields as (Hn & Hfs & Hc).
  unfold record_body. change "|" with (String pipe "").
  rewrite !append_cons, !append_nil_l.
  rewrite split_app by by apply delimiter_free_pipe.
  rewrite split_app
    by (apply contains_join; [done | eauto using forallb_fields, delimiter_free_pipe]).
  rewrite split_app by by destruct (is_allocated room).
  rewrite split_whole by by apply delimiter_free_pipe.
  done.
Qed.

Lemma field_count_record_line : field_count (record_line room) = 4.
Proof.
  unfold field_count. by rewrite strip_record_line, split_record_body.
Qed.

(** [load_data] reads from a record the room [save_data] wrote. *)
Lemma room_of_record_line : room_of_line (record_line room) = room.
Proof.
  destruct free_fields as (Hn & Hfs & Hc).
  destruct safe_fields as (Hne & _).
  unfold room_of_line. rewrite strip_record_line, split_record_body. simpl.
  rewrite split_join by eauto using forallb_fields, delimiter_free_comma.
  destruct room as [n fs [] c]; reflexivity.
Qed.
End OneRecord.

Lemma readlines_written (l : list Room) :
  Forall (fun room => room_delimiter_free room = true) l ->
  Forall (fun room => room_line_safe room = true) l ->
  readlines (written l) = map record_line l.
Proof.
  intros Hfree Hsafe. induction l as [|room l IH]; [done|].
  apply Forall_cons in Hfree as [Hf Hfree]. apply Forall_cons in Hsafe as [Hs Hsafe].
  destruct (record_body_no_line_end room Hs) as [Hlf Hcr].
  simpl. rewrite record_line_body at 1.
  rewrite append_assoc, append_cons, append_nil_l.
  rewrite readlines_line by done. rewrite IH by done.
  by rewrite <- record_line_body.
Qed.

Lemma save_data_run (w : store) :
  save_data w
  = Ok tt (World (rooms w) (<[file_name := written (rooms w)]> (files w))
             (trace w ++ [EvWrite file_name (written (rooms w))])).
Proof. by open_store w. Qed.

Lemma ensure_file_exists_present (w : store) (data : string) :
  files w !! file_name = Some data -> ensure_file_exists w = Ok tt w.
Proof.
  intros Hdata. unfold ensure_file_exists, path_exists. exec.
  rewrite Hdata. by rewrite bool_decide_eq_true_2.
Qed.

Lemma load_data_all (w : store) (data : string) :
  files w !! file_name = Some data ->
  Forall (fun line => 4 ≤ field_count line) (readlines data) ->
  load_data w
  = Ok tt (World (rooms w ++ map room_of_line (readlines data)) (files w) (trace w)).
Proof.
  intros Hdata Hlines.
  unfold load_data, try_except, mbind, M_bind, bind, read_file.
  by rewrite Hdata, load_lines_ok.
Qed.

Lemma new_run (fs : gmap string string) (data : string) :
  fs !! file_name = Some data ->
  Forall (fun line => 4 ≤ field_count line) (readlines data) ->
  new fs = Ok tt (World (map room_of_line (readlines data)) fs []).
Proof.
  intros Hdata Hlines.
  unfold new, init, try_except, mbind, M_bind, bind, set_self.
  cbn [self files trace].
  rewrite (ensure_file_exists_present _ data) by done.
  by rewrite (load_data_all _ data).
Qed.

(** C1, as the code has it.  Take rooms whose room numbers, features and
    customer names hold no ['|'] and no [','], and in addition: every room
    has at least one feature, none of those strings holds a line feed or a
    carriage return, no room number begins with white space and no customer
    name ends with white space.  Then a store made by the constructor on the
    file [save_data] wrote holds a room sequence equal to the original one,
    without printing an error or writing a file. *)
Theorem save_then_load_round_trip (w : store) :
  Forall (fun room => room_delimiter_free room = true) (rooms w) ->
  Forall (fun room => room_line_safe room = true) (rooms w) ->
  let saved := files (final (save_data w)) in
  new saved = Ok tt (World (rooms w) saved []).
Proof.
  intros Hfree Hsafe. rewrite save_data_run. cbn [final files].
  rewrite (new_run _ (written (rooms w))).
  - rewrite readlines_written, map_map by done. f_equal. f_equal.
    induction (rooms w) as [|room l IH]; [done|].
    apply Forall_cons in Hfree as [Hf Hfree].
    apply Forall_cons in Hsafe as [Hs Hsafe].
    simpl. by rewrite room_of_record_line, IH.
  - apply lookup_insert_eq.
  - rewrite readlines_written by done.
    apply Forall_forall. intros line Hin.
    apply list_elem_of_fmap in Hin as (room & -> & Hin).
    rewrite field_count_record_line; [lia | |].
    + by apply (proj1 (Forall_forall _ _) Hfree).
    + by apply (proj1 (Forall_forall _ _) Hsafe).
Qed.

Lemma save_then_load_round_trip_witness :
  let l := [mkRoom "101" ["wifi"; "sea view"] true "Alice Liddell";
            mkRoom "" [""] false "";
            mkRoom "12A" ["ac"] false ""] in
  let w := World l ∅ [] in
  new (files (final (save_data w))) = Ok tt (World l (files (final (save_data w))) []).
Proof.
  intros l w. apply (save_then_load_round_trip w).
  - repeat constructor.
  - repeat constructor.
Defined.

(** C1, as stated, fails: each of these rooms is free of ['|'] and [','],
    and none comes back from the file as it was saved.  An empty feature
    list is read as one empty feature; white space before the room number
    or after the customer name is stripped; a line feed or carriage return
    in any string ends the record early, and the rest of it is a short
    line that stops the load. *)
Lemma save_then_load_changes_rooms :
  reloads_as [mkRoom "1" [] false ""] [mkRoom "1" [""] false ""]
  ∧ reloads_as [mkRoom " 7" ["tv"] false ""] [mkRoom "7" ["tv"] false ""]
  ∧ reloads_as [mkRoom "7" ["tv"] true "Ann "] [mkRoom "7" ["tv"] true "Ann"]
  ∧ reloads_as [mkRoom ("7" +:+ String LF "B") ["tv"] false ""] []
  ∧ reloads_as [mkRoom "7" ["t" +:+ String LF "v"] false ""] []
  ∧ reloads_as [mkRoom "7" ["tv"] true ("Ann" +:+ String LF "Lee")]
               [mkRoom "7" ["tv"] true "Ann"]
  ∧ reloads_as [mkRoom ("7" +:+ String CR "B") ["tv"] false ""] []
  ∧ reloads_as [mkRoom "7" ["t" +:+ String CR "v"] false ""] []
  ∧ reloads_as [mkRoom "7" ["tv"] true ("Ann" +:+ String CR "Lee")]
               [mkRoom "7" ["tv"] true "Ann"].
Proof.
  unfold reloads_as.
  repeat split; try (repeat constructor; fail); try reflexivity; discriminate.
Qed.

(** ** Further properties *)

Import Reports.

(** *** Reports *)

Lemma for_each_print {A} (f : A -> string) (l : list A) (w : store) :
  for_each (fun x => print (f x)) l w
  = Ok tt (World (rooms w) (files w) (trace w ++ map (fun x => EvPrint (f x)) l)).
Proof.
  revert w. induction l as [|x l IH]; intros w.
  - open_store w. by rewrite app_nil_r.
  - simpl. unfold bind, print, emit. rewrite IH. unfold rooms. simpl.
    by rewrite <- app_assoc.
Qed.

Lemma for_each_print_if {A} (p : A -> bool) (f : A -> string) (l : list A) (w : store) :
  for_each (fun x => if p x then print (f x) else mret tt) l w
  = Ok tt (World (rooms w) (files w)
             (trace w ++ map (fun x => EvPrint (f x)) (List.filter p l))).
Proof.
  revert w. induction l as [|x l IH]; intros w.
  - open_store w. by rewrite app_nil_r.
  - simpl. unfold bind. destruct (p x); simpl.
    + unfold print, emit. rewrite IH. unfold rooms. simpl. by rewrite <- app_assoc.
    + unfold mret, M_ret, ret. by rewrite IH.
Qed.

Lemma display_room_details_run (w : store) :
  display_room_details w
  = Ok tt (World (rooms w) (files w)
             (trace w ++ map (fun room => EvPrint (Room_str room)) (rooms w))).
Proof.
  unfold display_room_details, try_except, mbind, M_bind, bind, get_self.
  by rewrite for_each_print.
Qed.

Lemma display_room_allocation_details_run (w : store) :
  display_room_allocation_details w
  = Ok tt (World (rooms w) (files w)
             (trace w ++ map (fun room => EvPrint (Room_str room))
                           (List.filter is_allocated (rooms w)))).
Proof.
  unfold display_room_allocation_details, try_except, mbind, M_bind, bind, get_self.
  by rewrite (for_each_print_if is_allocated Room_str).
Qed.

(** X1. The two listings print one line per room, in the order of the
    store: [display_room_details] for every room,
    [display_room_allocation_details] for the allocated ones only.  They
    return normally and change neither the rooms nor any file. *)
Theorem display_prints_rooms_in_order (w : store) :
  display_room_details w
  = Ok tt (World (rooms w) (files w)
             (trace w ++ map (fun room => EvPrint (Room_str room)) (rooms w)))
  ∧ display_room_allocation_details w
    = Ok tt (World (rooms w) (files w)
               (trace w ++ map (fun room => EvPrint (Room_str room))
                             (List.filter is_allocated (rooms w)))).
Proof.
  split; [apply display_room_details_run | apply display_room_allocation_details_run].
Qed.


(** *** Reading the file back *)

Lemma universal_newlines_id (s : string) :
  contains CR s = false -> universal_newlines s = s.
Proof.
  induction s as [|x s IH]; [done|].
  intros [Hx Hs]%contains_cons_false.
  cbn [universal_newlines]. rewrite Hx. by rewrite IH.
Qed.

Lemma show_room_allocation_from_file_run (w : store) :
  show_room_allocation_from_file w
  = Ok tt (World (rooms w) (files w)
             (trace w ++
              [EvPrint match files w !! file_name with
                       | Some data => universal_newlines data
                       | None => "FileNotFoundError caught: " +:+ not_found_message
                       end])).
Proof.
  open_store w. unfold show_room_allocation_from_file, read_text, read_file. exec.
  by destruct (fs !! file_name).
Qed.

(** X3. [show_room_allocation_from_file] right after [save_data] prints
    the text just saved, as the text layer reads it; that is the records
    of the rooms in memory, character for character, when they hold no
    carriage return. *)
Theorem show_after_save (w : store) :
  let w1 := final (save_data w) in
  show_room_allocation_from_file w1
  = Ok tt (World (rooms w) (files w1)
             (trace w1 ++ [EvPrint (universal_newlines (written (rooms w)))]))
  ∧ (contains CR (written (rooms w)) = false ->
     universal_newlines (written (rooms w)) = written (rooms w)).
Proof.
  intros w1. subst w1. rewrite save_data_run. cbn [final]. split.
  - rewrite show_room_allocation_from_file_run. cbn [files rooms self trace].
    unfold rooms. cbn [self]. by rewrite lookup_insert_eq.
  - apply universal_newlines_id.
Qed.

Lemma show_after_save_witness :
  let l := [mkRoom "5" ["wifi"] true "Ann"] in
  universal_newlines (written l) = written l.
Proof.
  intros l.
  apply (proj2 (show_after_save (World l ∅ []))). reflexivity.
Defined.

(** *** The backing file is missing *)

Lemma missing_file_is_reported_run (w : store) (now : datetime) :
  files w !! file_name = None ->
  load_data w
  = Ok tt (World (rooms w) (files w)
             (trace w ++ [EvPrint ("FileNotFoundError caught: " +:+ not_found_message)]))
  ∧ show_room_allocation_from_file w
    = Ok tt (World (rooms w) (files w)
               (trace w ++ [EvPrint ("FileNotFoundError caught: " +:+ not_found_message)]))
  ∧ backup_file_text now w
    = Ok tt (World (rooms w) (files w)
               (trace w ++ [EvPrint ("IOError caught: " +:+ not_found_message)])).
Proof.
  open_store w. intros Hnone. split; [|split].
  - unfold load_data, read_file. exec. by rewrite Hnone.
  - rewrite show_room_allocation_from_file_run. simpl. by rewrite Hnone.
  - unfold backup_file_text, backup_file, read_text, read_file. exec. by rewrite Hnone.
Qed.

(** X4. Without a backing file, [load_data],
    [show_room_allocation_from_file] and the backup each print one message
    with the [FileNotFoundError] text and return normally; rooms and files
    stay as they were, and no backup file appears.  The backup reports the
    error under the name of its [IOError] handler. *)
Theorem missing_file_is_reported (w : store) (now : datetime) :
  files w !! file_name = None ->
  load_data w
  = Ok tt (World (rooms w) (files w)
             (trace w ++ [EvPrint ("FileNotFoundError caught: " +:+ not_found_message)]))
  ∧ show_room_allocation_from_file w
    = Ok tt (World (rooms w) (files w)
               (trace w ++ [EvPrint ("FileNotFoundError caught: " +:+ not_found_message)]))
  ∧ backup_file_text now w
    = Ok tt (World (rooms w) (files w)
               (trace w ++ [EvPrint ("IOError caught: " +:+ not_found_message)])).
Proof. apply missing_file_is_reported_run. Qed.

Lemma missing_file_is_reported_witness :
  let w := World [mkRoom "5" ["wifi"] true "Ann"] ∅ [] in
  files (final (backup_file_text (mkDatetime 2024 6 26 9 5 0) w)) = ∅
  ∧ trace (final (load_data w))
    = [EvPrint "FileNotFoundError caught: [Errno 2] No such file or directory: 'LHMS_764708175.txt'"].
Proof.
  intros w.
  destruct (missing_file_is_reported w (mkDatetime 2024 6 26 9 5 0)) as (Hl & _ & Hb);
    [reflexivity|].
  rewrite Hl, Hb. split; reflexivity.
Defined.

(** *** Backup and save *)

(** C2, as the code has it.  On an existing backing file, [backup_file]
    stores under the time-stamped name the file's content as a text-mode
    read returns it, with every CR LF pair and every other CR turned into
    LF, which is the content itself when it holds no carriage return; it
    leaves the backing file empty and does not touch the rooms in memory.
    [save_room_allocation_to_file] afterwards makes the backing file hold
    the records of exactly those rooms again, which is not the empty text
    as soon as there is a room. *)
Theorem backup_file_then_save (w : store) (now : datetime) (data : string) :
  files w !! file_name = Some data ->
  let r1 := backup_file now w in
  let r2 := save_room_allocation_to_file (final r1) in
  returned r1 = true ∧ returned r2 = true
  ∧ files (final r1)
    = <[file_name := ""]> (<[backup_filename now := universal_newlines data]> (files w))
  ∧ files (final r1) !! backup_filename now = Some (universal_newlines data)
  ∧ (contains CR data = false -> files (final r1) !! backup_filename now = Some data)
  ∧ files (final r1) !! file_name = Some ""
  ∧ rooms (final r1) = rooms w
  ∧ rooms (final r2) = rooms w
  ∧ files (final r2) !! file_name = Some (written (rooms w))
  ∧ files (final r2) !! backup_filename now = Some (universal_newlines data)
  ∧ (rooms w ≠ [] -> written (rooms w) ≠ "").
Proof.
  open_store w. intros Hdata.
  unfold backup_file, read_text, read_file. exec. rewrite Hdata. simpl.
  pose proof (backup_filename_fresh now) as Hfresh.
  repeat split; try done.
  - rewrite lookup_insert_ne by done. apply lookup_insert_eq.
  - intros Hcr. rewrite lookup_insert_ne by done.
    rewrite lookup_insert_eq. by rewrite universal_newlines_id.
  - apply lookup_insert_eq.
  - apply lookup_insert_eq.
  - rewrite !lookup_insert_ne by done. apply lookup_insert_eq.
  - apply written_nonempty.
Qed.

(** The scenario of the specification: one room 5, saved, backed up on
    26 June 2024 at 09:05:00, and saved again. *)
Lemma backup_file_then_save_witness :
  let five := mkRoom "5" ["wifi"] false "" in
  let w := final (save_data (World [five] ∅ [])) in
  let w1 := final (backup_file (mkDatetime 2024 6 26 9 5 0) w) in
  let w2 := final (save_room_allocation_to_file w1) in
  files w !! file_name = Some (record_line five)
  ∧ files w1 !! "LHMS_764708175_Backup_20240626_090500.txt" = Some (record_line five)
  ∧ files w1 !! file_name = Some ""
  ∧ rooms w1 = [five]
  ∧ files w2 !! file_name = Some (record_line five).
Proof.
  intros five w w1 w2.
  assert (Hfile : files w !! file_name = Some (record_line five)) by reflexivity.
  destruct (backup_file_then_save w (mkDatetime 2024 6 26 9 5 0) _ Hfile)
    as (_ & _ & _ & _ & Hb & He & Hr & _ & Hs & _).
  split; [exact Hfile|]. split; [by apply Hb|]. split; [exact He|].
  split; [exact Hr|]. exact Hs.
Defined.

(** C2, as stated, fails.  The record of a customer name with a carriage
    return is in the backing file as it was written; in the backup the
    carriage return is a line feed, so the backup is not a copy of the
    file.  With no room in memory the backing file is empty after the
    save.  And without a backing file nothing is copied: no backup file
    appears. *)
Lemma backup_file_is_not_a_copy :
  (let ann := mkRoom "5" ["wifi"] true ("Ann" +:+ String CR "Lee") in
   let w := final (save_data (World [ann] ∅ [])) in
   let w1 := final (backup_file (mkDatetime 2024 6 26 9 5 0) w) in
   files w !! file_name
   = Some ("5|wifi|True|Ann" +:+ String CR ("Lee" +:+ String LF ""))
   ∧ files w1 !! backup_filename (mkDatetime 2024 6 26 9 5 0)
     = Some ("5|wifi|True|Ann" +:+ String LF ("Lee" +:+ String LF ""))
   ∧ files w1 !! backup_filename (mkDatetime 2024 6 26 9 5 0) ≠ files w !! file_name)
  ∧ (let w := final (new ∅) in
     let w1 := final (backup_file (mkDatetime 2024 6 26 9 5 0) w) in
     rooms w = []
     ∧ files (final (save_room_allocation_to_file w1)) !! file_name = Some "")
  ∧ (let w := World [mkRoom "5" ["wifi"] false ""] ∅ [] in
     files (final (backup_file (mkDatetime 2024 6 26 9 5 0) w)) = ∅).
Proof.
  split; [|split].
  - intros ann w w1. split; [reflexivity|]. split; [reflexivity|].
    intros Heq. vm_compute in Heq. discriminate Heq.
  - intros w w1. split; reflexivity.
  - reflexivity.
Qed.

(** *** Backup, with the text layer *)

Lemma backup_file_text_run (w : store) (now : datetime) (data : string) :
  files w !! file_name = Some data ->
  let copy := universal_newlines data in
  backup_file_text now w
  = Ok tt (World (rooms w)
             (<[file_name := ""]> (<[backup_filename now := copy]> (files w)))
             (trace w ++
              [EvWrite (backup_filename now) copy;
               EvWrite file_name "";
               EvPrint ("Backup created and data cleared from original file. Backup filename: "
                        +:+ backup_filename now)])).
Proof.
  open_store w. intros Hdata.
  unfold backup_file_text, backup_file, read_text, read_file. exec. rewrite Hdata. simpl.
  by rewrite <- !app_assoc.
Qed.

(** X5. What [backup_file] writes to the backup is the text [read]
    returns: the content of the backing file with every CR LF pair and
    every other CR turned into LF.  The backup is different from the file it
    was taken from exactly when that holds a carriage return that is not
    already read as LF; without one the copy is exact.  The backing file is
    left empty and the rooms in memory as they were. *)
Theorem backup_copies_text (w : store) (now : datetime) (data : string) :
  files w !! file_name = Some data ->
  let w1 := final (backup_file_text now w) in
  files w1 !! backup_filename now = Some (universal_newlines data)
  ∧ files w1 !! file_name = Some ""
  ∧ rooms w1 = rooms w
  ∧ (contains CR data = false -> files w1 !! backup_filename now = Some data)
  ∧ (contains CR data = false -> backup_file_text now w = backup_file now w).
Proof.
  intros Hdata w1. subst w1. rewrite (backup_file_text_run w now data Hdata).
  pose proof (backup_filename_fresh now) as Hfresh.
  cbn [final files rooms self].
  split; [rewrite lookup_insert_ne by done; apply lookup_insert_eq|].
  split; [apply lookup_insert_eq|]. split; [done|]. split.
  - intros Hcr. rewrite lookup_insert_ne by done.
    rewrite lookup_insert_eq. by rewrite universal_newlines_id.
  - intros Hcr. symmetry. apply (backup_file_text_run w now data Hdata).
Qed.

(** A customer name with a carriage return: the backup holds a line feed
    in its place. *)
Lemma backup_copies_text_witness :
  let ann := mkRoom "5" ["wifi"] true ("Ann" +:+ String CR "Lee") in
  let w := final (save_data (World [ann] ∅ [])) in
  let w1 := final (backup_file_text (mkDatetime 2024 6 26 9 5 0) w) in
  files w !! file_name = Some ("5|wifi|True|Ann" +:+ String CR ("Lee" +:+ String LF ""))
  ∧ files w1 !! "LHMS_764708175_Backup_20240626_090500.txt"
    = Some ("5|wifi|True|Ann" +:+ String LF ("Lee" +:+ String LF "")).
Proof.
  intros ann w w1. split; [reflexivity|].
  apply (backup_copies_text w (mkDatetime 2024 6 26 9 5 0) _ eq_refl).
Defined.

(** X6. Two backups within the same second share their file name: the
    second one copies the backing file the first one has emptied, so that
    afterwards the backup and the backing file are both empty and the data
    is left in memory only. *)
Theorem backup_twice_same_second (w : store) (now : datetime) (data : string) :
  files w !! file_name = Some data ->
  let w2 := final (backup_file_text now (final (backup_file_text now w))) in
  files w2 !! backup_filename now = Some ""
  ∧ files w2 !! file_name = Some ""
  ∧ rooms w2 = rooms w.
Proof.
  intros Hdata w2. subst w2.
  pose proof (backup_filename_fresh now) as Hfresh.
  rewrite (backup_file_text_run w now data Hdata). cbn [final].
  rewrite (backup_file_text_run _ now ""); [|apply lookup_insert_eq].
  cbn [final files rooms self universal_newlines].
  split; [rewrite lookup_insert_ne by done; apply lookup_insert_eq|].
  split; [apply lookup_insert_eq | done].
Qed.

Lemma backup_twice_same_second_witness :
  let w := final (save_data (World [mkRoom "5" ["wifi"] true "Ann"] ∅ [])) in
  let now := mkDatetime 2024 6 26 9 5 0 in
  let w2 := final (backup_file_text now (final (backup_file_text now w))) in
  files w2 !! backup_filename now = Some ""
  ∧ files w2 !! file_name = Some ""
  ∧ rooms w2 = [mkRoom "5" ["wifi"] true "Ann"].
Proof.
  intros w now w2.
  apply (backup_twice_same_second w now (written (rooms w))). reflexivity.
Defined.

(** X7. After a backup the two reports disagree:
    [show_room_allocation_from_file] prints the empty text, while
    [display_room_details] still prints every room. *)
Theorem reports_after_backup (w : store) (now : datetime) (data : string) :
  files w !! file_name = Some data ->
  let w1 := final (backup_file_text now w) in
  show_room_allocation_from_file w1
  = Ok tt (World (rooms w) (files w1) (trace w1 ++ [EvPrint ""]))
  ∧ display_room_details w1
    = Ok tt (World (rooms w) (files w1)
               (trace w1 ++ map (fun room => EvPrint (Room_str room)) (rooms w))).
Proof.
  intros Hdata w1. subst w1.
  rewrite (backup_file_text_run w now data Hdata). cbn [final]. split.
  - rewrite show_room_allocation_from_file_run. cbn [files rooms self trace].
    by rewrite lookup_insert_eq.
  - by rewrite display_room_details_run.
Qed.

Lemma reports_after_backup_witness :
  let ann := mkRoom "5" ["wifi"; "tv"] true "Ann" in
  let w := final (save_data (World [ann] ∅ [])) in
  let w1 := final (backup_file_text (mkDatetime 2024 6 26 9 5 0) w) in
  show_room_allocation_from_file w1
  = Ok tt (World [ann] (files w1) (trace w1 ++ [EvPrint ""]))
  ∧ display_room_details w1
    = Ok tt (World [ann] (files w1)
               (trace w1 ++
                [EvPrint "Room 5 - Features: wifi, tv - Allocated: True - Customer: Ann"])).
Proof.
  intros ann w w1.
  apply (reports_after_backup w (mkDatetime 2024 6 26 9 5 0) (written [ann])).
  reflexivity.
Defined.

(** *** The name of the backup *)

Lemma append_length (a b : string) :
  String.length (a +:+ b) = String.length a + String.length b.
Proof.
  induction a as [|x a IH]; [done|]. rewrite append_cons. simpl. by rewrite IH.
Qed.

Lemma append_inj_length (a a' b b' : string) :
  String.length a = String.length a' ->
  a +:+ b = a' +:+ b' -> a = a' ∧ b = b'.
Proof.
  revert a'. induction a as [|x a IH]; intros [|x' a'] Hlen Heq;
    try discriminate Hlen.
  - done.
  - rewrite !append_cons in Heq. injection Heq as -> Heq.
    destruct (IH a') as [-> ->]; [by injection Hlen | done | done].
Qed.

Lemma digits_S (k n : nat) :
  digits (S k) n = digits k (n / 10) +:+ String (digit n) "".
Proof. reflexivity. Qed.

Lemma digits_length (k n : nat) : String.length (digits k n) = k.
Proof.
  revert n. induction k as [|k IH]; intros n; [done|].
  rewrite digits_S, append_length, IH. simpl. lia.
Qed.

Lemma digit_inj (n m : nat) : digit n = digit m -> n mod 10 = m mod 10.
Proof.
  unfold digit. intros Heq.
  assert (forall a, a < 10 -> nat_of_ascii (ascii_of_nat (48 + a)) = 48 + a) as Hemb
    by (intros a Ha; apply nat_ascii_embedding; lia).
  pose proof (Nat.mod_upper_bound n 10) as Hn.
  pose proof (Nat.mod_upper_bound m 10) as Hm.
  apply (f_equal nat_of_ascii) in Heq. rewrite !Hemb in Heq by lia. lia.
Qed.

Lemma digits_inj (k n m : nat) :
  n < 10 ^ k -> m < 10 ^ k -> digits k n = digits k m -> n = m.
Proof.
  revert n m. induction k as [|k IH]; intros n m Hn Hm Heq.
  - simpl in *. lia.
  - rewrite !digits_S in Heq. apply append_inj_length in Heq as [Hhigh Hlow];
      [|by rewrite !digits_length].
    injection Hlow as Hlow%digit_inj.
    rewrite Nat.pow_succ_r' in Hn, Hm.
    apply IH in Hhigh; [| apply Nat.Div0.div_lt_upper_bound; lia ..].
    rewrite (Nat.div_mod_eq n 10), (Nat.div_mod_eq m 10). lia.
Qed.

Lemma strftime_length (d : datetime) : String.length (strftime d) = 15.
Proof.
  unfold strftime. rewrite !append_length, !digits_length. reflexivity.
Qed.

Lemma strftime_inj (d d' : datetime) :
  in_range d -> in_range d' -> strftime d = strftime d' -> d = d'.
Proof.
  intros (Hy & Hmo & Hd & Hh & Hmi & Hs) (Hy' & Hmo' & Hd' & Hh' & Hmi' & Hs') Heq.
  unfold strftime in Heq.
  apply append_inj_length in Heq as [Ey Heq]; [|by rewrite !digits_length].
  apply append_inj_length in Heq as [Emo Heq]; [|by rewrite !digits_length].
  apply append_inj_length in Heq as [Ed Heq]; [|by rewrite !digits_length].
  apply append_inj_length in Heq as [_ Heq]; [|done].
  apply append_inj_length in Heq as [Eh Heq]; [|by rewrite !digits_length].
  apply append_inj_length in Heq as [Emi Es]; [|by rewrite !digits_length].
  apply digits_inj in Ey, Emo, Ed, Eh, Emi, Es; try done.
  destruct d, d'. cbn [year month day hour minute second] in *. by subst.
Qed.

(** X8. Backups taken at different seconds get different file names:
    on dates whose fields fit the widths of the time stamp,
    [backup_filename] is injective.  A later backup therefore overwrites an
    earlier one only within the same second. *)
Theorem backup_filename_injective (d d' : datetime) :
  in_range d -> in_range d' ->
  backup_filename d = backup_filename d' -> d = d'.
Proof.
  intros Hd Hd' Heq. unfold backup_filename in Heq. apply (inj _) in Heq.
  apply append_inj_length in Heq as [Heq _]; [|by rewrite !strftime_length].
  by apply strftime_inj.
Qed.

Lemma backup_filename_injective_witness :
  let d := mkDatetime 2024 6 26 9 5 0 in
  in_range d ∧ backup_filename d = "LHMS_764708175_Backup_20240626_090500.txt"
  ∧ (backup_filename d = backup_filename d -> d = d).
Proof.
  intros d.
  assert (Hr : in_range d) by (unfold in_range; simpl; lia).
  split; [exact Hr|]. split; [reflexivity|].
  apply (backup_filename_injective d d Hr Hr).
Defined.

(** *** The constructor and the loader on any file *)

Lemma load_lines_prefix (lines : list string) (w : store) :
  let w' := World (rooms w ++ map room_of_line (loadable lines)) (files w) (trace w) in
  for_each load_line lines w
  = if all_loadable lines then Ok tt w' else Raise index_error w'.
Proof.
  revert w. induction lines as [|line lines IH]; intros w.
  - open_store w. by rewrite app_nil_r.
  - cbn [for_each loadable all_loadable forallb]. unfold bind.
    destruct (4 <=? field_count line) eqn:Hline.
    + apply Nat.leb_le in Hline. rewrite load_line_ok by done. rewrite IH.
      cbn [rooms self files trace andb map]. unfold rooms. cbn [self].
      by rewrite <- app_assoc.
    + apply Nat.leb_gt in Hline. rewrite load_line_short by done.
      open_store w. by rewrite app_nil_r.
Qed.

Lemma load_data_run (w : store) (data : string) :
  files w !! file_name = Some data ->
  load_data w
  = Ok tt (World (rooms w ++ map room_of_line (loadable (readlines data)))
             (files w)
             (trace w ++
              if all_loadable (readlines data) then []
              else [EvPrint "IndexError caught: list index out of range"])).
Proof.
  intros Hdata.
  unfold load_data, try_except, mbind, M_bind, bind, read_file.
  rewrite Hdata, load_lines_prefix.
  destruct (all_loadable (readlines data)); [by rewrite app_nil_r | done].
Qed.

Lemma ensure_file_exists_run (w : store) :
  ensure_file_exists w
  = Ok tt match files w !! file_name with
          | Some _ => w
          | None => World (rooms w) (<[file_name := ""]> (files w))
                      (trace w ++ [EvWrite file_name ""])
          end.
Proof.
  destruct (files w !! file_name) as [data|] eqn:Hdata.
  - by apply (ensure_file_exists_present w data).
  - open_store w. unfold ensure_file_exists, path_exists. exec.
    rewrite Hdata. by rewrite bool_decide_eq_false_2 by (by intros [? ?]).
Qed.

Lemma new_on_text_run (fs : gmap string string) :
  let lines := readlines (default "" (fs !! file_name)) in
  new fs
  = Ok tt (World (map room_of_line (loadable lines))
             (match fs !! file_name with
              | Some _ => fs
              | None => <[file_name := ""]> fs
              end)
             (match fs !! file_name with
              | Some _ => []
              | None => [EvWrite file_name ""]
              end
              ++ (if all_loadable lines then []
                  else [EvPrint "IndexError caught: list index out of range"]))).
Proof.
  intros lines. subst lines.
  unfold new, init, try_except, mbind, M_bind, bind, set_self.
  cbn [self files trace]. rewrite ensure_file_exists_run. cbn [files rooms self trace].
  destruct (fs !! file_name) as [data|] eqn:Hdata.
  - by rewrite (load_data_run _ data).
  - by rewrite (load_data_run _ ""); [|apply lookup_insert_eq].
Qed.

(** X9. In a directory whose backing file, if there is one, is text that
    the file encoding reads, [HotelManagementSystem()] never raises,
    whatever that text is.  It creates the file, empty, when it is missing,
    and writes nothing otherwise; no other file is touched.  The rooms of the
    new store are those of the lines of the file up to the first line with
    fewer than four fields, and the console shows the [IndexError] message
    exactly when there is such a line.  (A file that cannot be decoded is not
    a [string] of this model: there [readlines] raises a [ValueError] that
    [load_data] prints, and no room is loaded.) *)
Theorem new_on_any_text (fs : gmap string string) :
  let lines := readlines (default "" (fs !! file_name)) in
  new fs
  = Ok tt (World (map room_of_line (loadable lines))
             (match fs !! file_name with
              | Some _ => fs
              | None => <[file_name := ""]> fs
              end)
             (match fs !! file_name with
              | Some _ => []
              | None => [EvWrite file_name ""]
              end
              ++ (if all_loadable lines then []
                  else [EvPrint "IndexError caught: list index out of range"]))).
Proof. apply new_on_text_run. Qed.

(** X10. [load_data] adds to the rooms in memory, it does not replace
    them: called on a store that already holds the rooms of the file, it
    holds each of them twice. *)
Theorem load_data_appends (w : store) (data : string) :
  files w !! file_name = Some data ->
  let loaded := map room_of_line (loadable (readlines data)) in
  rooms (final (load_data w)) = rooms w ++ loaded
  ∧ rooms (final (load_data (final (load_data w)))) = rooms w ++ loaded ++ loaded
  ∧ files (final (load_data (final (load_data w)))) = files w.
Proof.
  intros Hdata loaded. subst loaded.
  rewrite (load_data_run w data Hdata). cbn [final].
  rewrite (load_data_run _ data) by done.
  cbn [final rooms self files]. unfold rooms. cbn [self].
  by rewrite <- app_assoc.
Qed.

Lemma load_data_appends_witness :
  let ann := mkRoom "5" ["wifi"] true "Ann" in
  let w := final (new {[ file_name := written [ann] ]}) in
  rooms w = [ann] ∧ rooms (final (load_data w)) = [ann; ann].
Proof.
  intros ann w. split; [reflexivity|].
  apply (load_data_appends w (written [ann]) eq_refl).
Defined.

(** *** Allocation and billing, path by path *)

Lemma allocate_room_found (w : store) (number customer : string)
    (pre post : list Room) (room : Room) :
  rooms w = pre ++ room :: post ->
  Forall (fun r => room_number r ≠ number) pre ->
  room_number room = number -> is_allocated room = false ->
  let l' := pre ++ mkRoom (room_number room) (features room) true customer :: post in
  allocate_room number customer w
  = Ok tt (World l' (<[file_name := written l']> (files w))
             (trace w ++
              [EvPrint ("Room " +:+ number +:+ " allocated to " +:+ customer +:+ ".");
               EvWrite file_name (written l')])).
Proof.
  open_store w. intros -> Hpre Hnum Hfree.
  unfold allocate_room. exec.
  rewrite (list_find_first (fun r => room_number r = number)) by done.
  rewrite Hfree. simpl. rewrite !alter_middle. simpl.
  by rewrite <- !app_assoc.
Qed.

Lemma bill_and_deallocate_found (w : store) (number : string)
    (pre post : list Room) (room : Room) :
  rooms w = pre ++ room :: post ->
  Forall (fun r => ¬ (room_number r = number ∧ is_allocated r = true)) pre ->
  room_number room = number -> is_allocated room = true ->
  let l' := pre ++ mkRoom (room_number room) (features room) false "" :: post in
  bill_and_deallocate number w
  = Ok tt (World l' (<[file_name := written l']> (files w))
             (trace w ++
              [EvPrint ("Billing customer " +:+ customer_name room
                        +:+ " for Room " +:+ number +:+ ".");
               EvWrite file_name (written l');
               EvPrint ("Room " +:+ number +:+ " is de-allocated for the customer.")])).
Proof.
  open_store w. intros -> Hpre Hnum Halloc.
  unfold bill_and_deallocate. exec.
  rewrite (list_find_first
             (fun r => room_number r = number ∧ is_allocated r = true)) by done.
  simpl. rewrite !alter_middle. simpl.
  by rewrite <- !app_assoc.
Qed.

(** X11. [allocate_room] on a number that no room has prints its
    not-found message and changes nothing, without a write.  When the first
    room with the number is free, that room alone becomes allocated to the
    customer, the message is printed and then the file is rewritten from
    the new room list. *)
Theorem allocate_room_outcomes (w : store) (number customer : string) :
  (Forall (fun r => room_number r ≠ number) (rooms w) ->
   allocate_room number customer w
   = Ok tt (World (rooms w) (files w)
              (trace w ++ [EvPrint ("Room " +:+ number +:+ " not found.")])))
  ∧ (forall pre room post,
       rooms w = pre ++ room :: post ->
       Forall (fun r => room_number r ≠ number) pre ->
       room_number room = number -> is_allocated room = false ->
       let l' := pre ++ mkRoom (room_number room) (features room) true customer :: post in
       allocate_room number customer w
       = Ok tt (World l' (<[file_name := written l']> (files w))
                  (trace w ++
                   [EvPrint ("Room " +:+ number +:+ " allocated to " +:+ customer +:+ ".");
                    EvWrite file_name (written l')]))).
Proof.
  split.
  - open_store w. intros Hnone. unfold allocate_room. exec.
    by rewrite list_find_none.
  - intros pre room post. apply allocate_room_found.
Qed.

Lemma allocate_room_outcomes_witness :
  let a := mkRoom "101" ["wifi"] true "Alice" in
  let b := mkRoom "102" ["ac"] false "" in
  let c := mkRoom "102" ["tv"] false "" in
  let w := World [a; b; c] ∅ [] in
  trace (final (allocate_room "7" "Bob" w)) = [EvPrint "Room 7 not found."]
  ∧ rooms (final (allocate_room "102" "Bob" w))
    = [a; mkRoom "102" ["ac"] true "Bob"; c].
Proof.
  intros a b c w.
  destruct (allocate_room_outcomes w "7" "Bob") as [Hnone _].
  destruct (allocate_room_outcomes w "102" "Bob") as [_ Hfound].
  rewrite Hnone by (repeat constructor; discriminate).
  rewrite (Hfound [a] b [c]); try reflexivity.
  - split; reflexivity.
  - repeat constructor; discriminate.
Defined.

(** X12. [bill_and_deallocate] undoes [allocate_room]: when the first
    room with the number is free and has no customer name, allocating it
    and then billing the number gives back the room list as it was, and the
    backing file holds its records. *)
Theorem allocate_then_bill_restores (w : store) (number customer : string)
    (pre post : list Room) (room : Room) :
  rooms w = pre ++ room :: post ->
  Forall (fun r => room_number r ≠ number) pre ->
  room_number room = number ->
  is_allocated room = false -> customer_name room = "" ->
  let w2 := final (bill_and_deallocate number (final (allocate_room number customer w))) in
  rooms w2 = rooms w
  ∧ files w2 !! file_name = Some (written (rooms w)).
Proof.
  intros Hl Hpre Hnum Hfree Hname w2. subst w2.
  rewrite (allocate_room_found w number customer pre post room) by done.
  cbn [final].
  rewrite (bill_and_deallocate_found _ number pre post
             (mkRoom (room_number room) (features room) true customer));
    try done.
  - cbn [final rooms self files room_number features].
    assert (mkRoom (room_number room) (features room) false "" = room) as ->
      by (destruct room; simpl in *; by subst).
    unfold rooms in Hl. rewrite <- Hl. unfold rooms.
    split; [done | apply lookup_insert_eq].
  - eapply Forall_impl; [exact Hpre|]. intros r Hne [Heq _]. by apply Hne.
Qed.

Lemma allocate_then_bill_restores_witness :
  let a := mkRoom "101" ["wifi"] true "Alice" in
  let b := mkRoom "102" ["ac"] false "" in
  let w := World [a; b] ∅ [] in
  let w2 := final (bill_and_deallocate "102" (final (allocate_room "102" "Bob" w))) in
  rooms w2 = [a; b] ∧ files w2 !! file_name = Some (written [a; b]).
Proof.
  intros a b w w2.
  apply (allocate_then_bill_restores w "102" "Bob" [a] [] b); try reflexivity.
  repeat constructor; discriminate.
Defined.

(** X13. [delete_room] after [add_room] with a list: the rooms left are
    the old ones with another number, so the room just added is gone
    together with every older room of that number; when the number was new,
    the room list is back to what it was and the file holds its records. *)
Theorem add_then_delete (w : store) (number : string) (items : list string) :
  let w2 := final (delete_room number (final (add_room number (PyList items) w))) in
  rooms w2 = List.filter (keep number) (rooms w)
  ∧ files w2 !! file_name = Some (written (rooms w2))
  ∧ (Forall (fun r => room_number r ≠ number) (rooms w) -> rooms w2 = rooms w).
Proof.
  intros w2.
  assert (rooms w2 = List.filter (keep number) (rooms w)
          ∧ files w2 !! file_name = Some (written (rooms w2))) as [Hrooms Hfile].
  { subst w2. rewrite delete_room_run. cbn [final rooms self files].
    split; [|apply lookup_insert_eq].
    open_store w. unfold add_room. exec.
    rewrite List.filter_app. simpl. unfold keep at 2. simpl.
    rewrite String.eqb_refl. simpl. by rewrite app_nil_r. }
  split; [done|]. split; [done|].
  intros Hnew. rewrite Hrooms. by apply kept_id.
Qed.

Lemma add_then_delete_witness :
  let a := mkRoom "12A" ["wifi"] true "Dan" in
  let b := mkRoom "7" ["tv"] false "" in
  rooms (final (delete_room "12A" (final (add_room "12A" (PyList ["ac"]) (World [a; b] ∅ [])))))
  = [b]
  ∧ rooms (final (delete_room "8" (final (add_room "8" (PyList ["ac"]) (World [a; b] ∅ [])))))
    = [a; b].
Proof.
  intros a b. split.
  - by rewrite (proj1 (add_then_delete (World [a; b] ∅ []) "12A" ["ac"])).
  - apply (add_then_delete (World [a; b] ∅ []) "8" ["ac"]).
    repeat constructor; discriminate.
Defined.

(** *** What a run of calls leaves alone *)

Lemma map_alter_same {A B} (g : A -> B) (f : A -> A) (i : nat) (l : list A) :
  (forall x, g (f x) = g x) -> map g (alter f i l) = map g l.
Proof.
  intros Hg. revert i. induction l as [|x l IH]; intros [|i]; simpl; try done.
  - by rewrite Hg.
  - f_equal. apply IH.
Qed.

Lemma perform_frame (c : call) (w : store) :
  exists w', perform c w = Ok tt w'
    ∧ map room_number (rooms w') = map room_number (rooms w)
    ∧ map features (rooms w') = map features (rooms w).
Proof.
  open_store w. destruct c as [number customer|number]; simpl.
  - unfold allocate_room. exec.
    destruct (list_find _ l) as [[i room]|]; [|by eexists].
    destruct (is_allocated room); simpl; [by eexists|].
    eexists. split; [done|]. simpl. by rewrite !map_alter_same.
  - unfold bill_and_deallocate. exec.
    destruct (list_find _ l) as [[i room]|]; [|by eexists].
    simpl. eexists. split; [done|]. simpl. by rewrite !map_alter_same.
Qed.

(** X14. No sequence of [allocate_room] and [bill_and_deallocate] calls
    adds, removes or reorders rooms, or changes a room number or a feature
    list: the room numbers and the feature lists, read in store order, are
    the same before and after. *)
Theorem calls_keep_numbers_and_features (w : store) (calls : list call) :
  let w' := final (run calls w) in
  returned (run calls w) = true
  ∧ map room_number (rooms w') = map room_number (rooms w)
  ∧ map features (rooms w') = map features (rooms w)
  ∧ length (rooms w') = length (rooms w).
Proof.
  cbv zeta.
  assert (returned (run calls w) = true
          ∧ map room_number (rooms (final (run calls w))) = map room_number (rooms w)
          ∧ map features (rooms (final (run calls w))) = map features (rooms w))
    as (Hret & Hnum & Hfeat).
  { revert w. induction calls as [|c calls IH]; intros w; [done|].
    unfold run. simpl. unfold bind.
    destruct (perform_frame c w) as (w' & -> & Hn & Hf).
    destruct (IH w') as (Hret & Hn' & Hf').
    split; [exact Hret|]. split; [by rewrite <- Hn | by rewrite <- Hf]. }
  split; [done|]. split; [done|]. split; [done|].
  by rewrite <- (length_map room_number), Hnum, length_map.
Qed.

(** *** Sessions of menu commands *)

Lemma add_room_effect (w : store) (number : string) (feats : features_arg) :
  exists w', add_room number feats w = Ok tt w'
    ∧ (only_prints w w' ∨ rewrites_file w w').
Proof.
  open_store w. unfold only_prints, rewrites_file, rooms.
  destruct feats; (eexists; split; [reflexivity|]); simpl; auto.
Qed.

Lemma allocate_room_effect (w : store) (number customer : string) :
  exists w', allocate_room number customer w = Ok tt w'
    ∧ (only_prints w w' ∨ rewrites_file w w').
Proof.
  open_store w. unfold only_prints, rewrites_file, rooms, allocate_room. exec.
  destruct (list_find _ l) as [[i room]|]; [|eexists; split; [done|]; simpl; auto].
  destruct (is_allocated room); simpl; eexists; (split; [done|]); simpl; auto.
Qed.

Lemma bill_and_deallocate_effect (w : store) (number : string) :
  exists w', bill_and_deallocate number w = Ok tt w'
    ∧ (only_prints w w' ∨ rewrites_file w w').
Proof.
  open_store w. unfold only_prints, rewrites_file, rooms, bill_and_deallocate. exec.
  destruct (list_find _ l) as [[i room]|]; eexists; (split; [done|]); simpl; auto.
Qed.

Lemma execute_effect (c : command) (w : store) :
  is_backup c = false ->
  exists w', execute c w = Ok tt w'
    ∧ (only_prints w w' ∨ rewrites_file w w').
Proof.
  destruct c; try discriminate; intros _; simpl.
  - apply add_room_effect.
  - rewrite delete_room_run. eexists. split; [done|]. by right.
  - rewrite display_room_details_run. eexists. split; [done|]. by left.
  - apply allocate_room_effect.
  - rewrite display_room_allocation_details_run. eexists. split; [done|]. by left.
  - apply bill_and_deallocate_effect.
  - open_store w. eexists. split; [reflexivity|]. by right.
  - rewrite show_room_allocation_from_file_run. eexists. split; [done|]. by left.
Qed.

Lemma backup_file_text_effect (w : store) (now : datetime) :
  exists w', backup_file_text now w = Ok tt w'
    ∧ rooms w' = rooms w
    ∧ forall name, name ≠ file_name -> name ≠ backup_filename now ->
        files w' !! name = files w !! name.
Proof.
  destruct (files w !! file_name) as [data|] eqn:Hdata.
  - rewrite (backup_file_text_run w now data Hdata). eexists. split; [done|].
    split; [done|]. intros name Hn Hb. simpl. by rewrite !lookup_insert_ne.
  - destruct (missing_file_is_reported_run w now Hdata) as (_ & _ & ->).
    by eexists.
Qed.

Lemma execute_returns (c : command) (w : store) :
  exists w', execute c w = Ok tt w'
    ∧ forall name, name ≠ file_name -> not_a_backup_of name c ->
        files w' !! name = files w !! name.
Proof.
  destruct (is_backup c) eqn:Hb.
  - destruct c; try discriminate. simpl.
    destruct (backup_file_text_effect w now) as (w' & -> & _ & Hframe).
    exists w'. split; [done|]. intros name Hn Hnb. by apply Hframe.
  - destruct (execute_effect c w Hb) as (w' & -> & [[_ Hfiles]|Hfiles]);
      exists w'; (split; [done|]); intros name Hn _; rewrite Hfiles; [done|].
    by rewrite lookup_insert_ne.
Qed.

(** X15. Once the backing file holds the records of the rooms in memory,
    it still does after any sequence of menu commands without a backup:
    whatever changes the rooms rewrites the file.  A backup breaks this as
    soon as there is a room. *)
Theorem session_keeps_file_in_sync (w : store) (cs : list command) :
  in_sync w ->
  Forall (fun c => is_backup c = false) cs ->
  (exists w', session cs w = Ok tt w' ∧ in_sync w')
  ∧ (forall now, rooms w ≠ [] -> ¬ in_sync (final (execute (CmdBackup now) w))).
Proof.
  intros Hsync Hcs. split.
  - revert w Hsync. induction Hcs as [|c cs Hc _ IH]; intros w Hsync.
    + by exists w.
    + unfold session. simpl. unfold bind.
      destruct (execute_effect c w Hc) as (w1 & -> & Heff).
      apply IH. unfold in_sync in *.
      destruct Heff as [[Hr Hf]|Hf]; rewrite Hf; [by rewrite Hr|].
      apply lookup_insert_eq.
  - intros now Hne. simpl.
    rewrite (backup_file_text_run w now _ Hsync). unfold in_sync. simpl.
    rewrite lookup_insert_eq. intros [= Heq].
    by apply (written_nonempty (rooms w)).
Qed.

Lemma session_keeps_file_in_sync_witness :
  let ann := mkRoom "5" ["wifi"] false "" in
  let w := final (save_data (World [ann] ∅ [])) in
  let cs := [CmdAllocate "5" "Ann"; CmdAdd "6" (PyList ["tv"]); CmdAdd "7" PyNone;
             CmdShow; CmdBill "5"; CmdDelete "6"; CmdDisplay; CmdSave] in
  (exists w', session cs w = Ok tt w' ∧ in_sync w')
  ∧ ¬ in_sync (final (execute (CmdBackup (mkDatetime 2024 6 26 9 5 0)) w)).
Proof.
  intros ann w cs.
  destruct (session_keeps_file_in_sync w cs) as [Hkeep Hbreak].
  - reflexivity.
  - repeat constructor.
  - split; [exact Hkeep|]. apply Hbreak. discriminate.
Defined.



(** *** Rooms behind a duplicate number *)

Lemma alter_keeps_shadowed (f : Room -> Room) (l : list Room) (i j k : nat) (b : Room) :
  (forall r, room_number (f r) = room_number r) ->
  k ≠ i ->
  (exists a, l !! j = Some a ∧ room_number a = room_number b) ->
  l !! i = Some b ->
  (exists a, alter f k l !! j = Some a ∧ room_number a = room_number b)
  ∧ alter f k l !! i = Some b.
Proof.
  intros Hf Hki (a & Ha & Hnum) Hb. split.
  - destruct (decide (k = j)) as [->|Hkj].
    + exists (f a). rewrite list_lookup_alter_eq, Ha. split; [done|]. by rewrite Hf.
    + exists a. by rewrite list_lookup_alter_ne.
  - by rewrite list_lookup_alter_ne.
Qed.

Lemma perform_keeps_shadowed (c : call) (w : store) (i j : nat) (b : Room) :
  j < i -> is_allocated b = false ->
  (exists a, rooms w !! j = Some a ∧ room_number a = room_number b) ->
  rooms w !! i = Some b ->
  exists w', perform c w = Ok tt w'
    ∧ (exists a, rooms w' !! j = Some a ∧ room_number a = room_number b)
    ∧ rooms w' !! i = Some b.
Proof.
  open_store w. intros Hji Hfree Hj Hi.
  destruct c as [number customer|number]; simpl.
  - unfold allocate_room. exec.
    destruct (list_find _ l) as [[k room]|] eqn:Hfind; [|by eexists].
    destruct (is_allocated room) eqn:Halloc; simpl; [by eexists|].
    apply list_find_Some in Hfind as (Hk & Hnum & Hfirst).
    eexists. split; [done|]. simpl. rewrite list_alter_alter_eq.
    apply alter_keeps_shadowed; try done.
    intros ->. destruct Hj as (a & Ha & Hab).
    apply (Hfirst j a Ha Hji). congruence.
  - unfold bill_and_deallocate. exec.
    destruct (list_find _ l) as [[k room]|] eqn:Hfind; [|by eexists].
    apply list_find_Some in Hfind as (Hk & [Hnum Halloc] & Hfirst).
    simpl. eexists. split; [done|]. simpl. rewrite list_alter_alter_eq.
    apply alter_keeps_shadowed; try done.
    intros ->. congruence.
Qed.

(** X17. A free room that stands behind another room with the same
    number cannot be reached: [allocate_room] stops at the first room with
    the number, [bill_and_deallocate] only looks at allocated rooms.  After
    any sequence of the two calls the room is at its place, unchanged and
    still free. *)
Theorem shadowed_duplicate_stays_free
    (w : store) (calls : list call) (i j : nat) (a b : Room) :
  j < i ->
  rooms w !! j = Some a -> rooms w !! i = Some b ->
  room_number a = room_number b -> is_allocated b = false ->
  rooms (final (run calls w)) !! i = Some b.
Proof.
  intros Hji Ha Hb Hnum Hfree.
  assert (exists a', rooms w !! j = Some a' ∧ room_number a' = room_number b) as Hj
    by by exists a.
  clear a Ha Hnum. revert w Hj Hb.
  induction calls as [|c calls IH]; intros w Hj Hb; [done|].
  unfold run. simpl. unfold bind.
  destruct (perform_keeps_shadowed c w i j b Hji Hfree Hj Hb) as (w' & -> & Hj' & Hb').
  by apply IH.
Qed.

Lemma shadowed_duplicate_stays_free_witness :
  let a := mkRoom "101" ["wifi"] false "" in
  let b := mkRoom "101" ["sea view"] false "" in
  let w := World [a; mkRoom "7" [] false ""; b] ∅ [] in
  let calls := [AllocateRoom "101" "Ann"; AllocateRoom "101" "Bob";
                BillAndDeallocate "101"; AllocateRoom "101" "Cy"] in
  rooms (final (run calls w)) !! 2 = Some b.
Proof.
  intros a b w calls.
  apply (shadowed_duplicate_stays_free w calls 2 0 a b); try reflexivity. lia.
Defined.

(** *** The file as a fixed point of save and load *)

Lemma split_nonempty (sep : ascii) (s : string) : split sep s ≠ [].
Proof.
  destruct s as [|c s]; simpl; [done|].
  destruct (Ascii.eqb c sep); [done|]. by destruct (split sep s).
Qed.

Lemma join_cons_char (c : ascii) (h : string) (t : list string) :
  join "," (String c h :: t) = String c (join "," (h :: t)).
Proof. by destruct t. Qed.

(** [",".join(s.split(","))] is [s]. *)
Lemma join_split (s : string) : join "," (split comma s) = s.
Proof.
  induction s as [|c s IH]; [done|].
  cbn [split]. destruct (Ascii.eqb c comma) eqn:Hc.
  - apply Ascii.eqb_eq in Hc as ->.
    pose proof (split_nonempty comma s) as Hne.
    destruct (split comma s) as [|h t] eqn:Hs; [done|].
    change (join "," ("" :: h :: t)) with (String comma (join "," (h :: t))).
    by rewrite IH.
  - pose proof (split_nonempty comma s) as Hne.
    destruct (split comma s) as [|h t] eqn:Hs; [done|].
    by rewrite join_cons_char, IH.
Qed.

(** The first piece of a split holds no separator. *)
Lemma hd_split_free (sep : ascii) (s : string) :
  contains sep (hd "" (split sep s)) = false.
Proof.
  induction s as [|c s IH]; [done|].
  cbn [split]. destruct (Ascii.eqb c sep) eqn:Hc; [done|].
  pose proof (split_nonempty sep s) as Hne.
  destruct (split sep s) as [|h t]; [done|].
  cbn [hd contains] in *. by rewrite Hc, IH.
Qed.

Lemma text_safe_pipe (s : string) : text_safe s = true -> contains pipe s = false.
Proof. unfold text_safe. by intros [?%negb_true_iff _]%andb_prop. Qed.

Lemma text_safe_lines (s : string) : text_safe s = true -> line_break_free s = true.
Proof. unfold text_safe. by intros [_ ?]%andb_prop. Qed.

Section RecordSafe.
Variable room : Room.
Hypothesis Hsafe : room_record_safe room = true.

Lemma record_safe_fields :
  text_safe (room_number room) = true
  ∧ forallb text_safe (features room) = true
  ∧ line_break_free (customer_name room) = true
  ∧ starts_with_space (room_number room) = false
  ∧ ends_with_space (customer_name room) = false.
Proof.
  unfold room_record_safe in Hsafe.
  by apply andb_prop in Hsafe
    as [[[[? ?]%andb_prop ?]%andb_prop ?%negb_true_iff]%andb_prop ?%negb_true_iff].
Qed.

Lemma safe_body_no_line_end :
  contains LF (record_body room) = false ∧ contains CR (record_body room) = false.
Proof.
  destruct record_safe_fields as (Hn & Hfs & Hc & _ & _).
  split; apply contains_record_body; try reflexivity;
    eauto using line_break_free_LF, line_break_free_CR, forallb_fields, text_safe_lines.
Qed.

Lemma safe_strip_record_line : strip (record_line room) = record_body room.
Proof.
  destruct record_safe_fields as (_ & _ & _ & Hs & He).
  rewrite record_line_body. apply strip_line.
  - unfold record_body. change "|" with (String pipe "") at 1.
    rewrite append_cons, append_nil_l. by apply starts_with_space_app.
  - unfold record_body. change "|" with (String pipe "").
    rewrite !append_cons, !append_nil_l.
    rewrite ends_with_space_app.
    rewrite <- append_cons, ends_with_space_app.
    rewrite <- append_cons, ends_with_space_app.
    by destruct (customer_name room).
Qed.

(** The customer name is the last field written, so its own ['|'] make
    further fields. *)
Lemma safe_split_record_body :
  split pipe (record_body room)
  = room_number room :: join "," (features room)
    :: str_of_bool (is_allocated room) :: split pipe (customer_name room).
Proof.
  destruct record_safe_fields as (Hn & Hfs & _ & _ & _).
  unfold record_body. change "|" with (String pipe "").
  rewrite !append_cons, !append_nil_l.
  rewrite split_app by by apply text_safe_pipe.
  rewrite split_app
    by (apply contains_join; [done | eauto using forallb_fields, text_safe_pipe]).
  by rewrite split_app by by destruct (is_allocated room).
Qed.

Lemma safe_field_count : 4 ≤ field_count (record_line room).
Proof.
  unfold field_count. rewrite safe_strip_record_line, safe_split_record_body.
  pose proof (split_nonempty pipe (customer_name room)).
  destruct (split pipe (customer_name room)); [done|]. simpl. lia.
Qed.

Lemma safe_room_of_record_line : room_of_line (record_line room) = reread room.
Proof.
  unfold room_of_line, reread.
  rewrite safe_strip_record_line, safe_split_record_body.
  pose proof (split_nonempty pipe (customer_name room)).
  destruct (split pipe (customer_name room)); [done|]. simpl.
  by destruct (is_allocated room).
Qed.
End RecordSafe.

Lemma room_text_safe_record (room : Room) :
  room_text_safe room = true ->
  room_record_safe room = true ∧ contains pipe (customer_name room) = false.
Proof. unfold room_text_safe. by intros [? ?%negb_true_iff]%andb_prop. Qed.

Lemma record_line_reread (room : Room) :
  contains pipe (customer_name room) = false ->
  record_line (reread room) = record_line room.
Proof.
  intros Hname. unfold record_line, reread. simpl.
  by rewrite join_split, (split_whole pipe) by done.
Qed.

Lemma reread_idem (room : Room) : reread (reread room) = reread room.
Proof.
  unfold reread. simpl. rewrite join_split.
  by rewrite (split_whole pipe (hd "" _)) by apply hd_split_free.
Qed.

Lemma readlines_written_safe (l : list Room) :
  Forall (fun room => room_record_safe room = true) l ->
  readlines (written l) = map record_line l.
Proof.
  induction 1 as [|room l Hs _ IH]; [done|].
  destruct (safe_body_no_line_end room Hs) as [Hlf Hcr].
  simpl. rewrite record_line_body at 1.
  rewrite append_assoc, append_cons, append_nil_l.
  rewrite readlines_line by done. rewrite IH.
  by rewrite <- record_line_body.
Qed.

Lemma loadable_all (lines : list string) :
  Forall (fun line => 4 ≤ field_count line) lines ->
  loadable lines = lines ∧ all_loadable lines = true.
Proof.
  induction 1 as [|line lines Hline%Nat.leb_le _ [IH1 IH2]]; [done|].
  cbn [loadable all_loadable forallb]. rewrite Hline.
  fold (all_loadable lines). by rewrite IH1, IH2.
Qed.

Lemma new_on_saved (w : store) :
  Forall (fun room => room_record_safe room = true) (rooms w) ->
  let saved := files (final (save_data w)) in
  new saved = Ok tt (World (map reread (rooms w)) saved []).
Proof.
  intros Hsafe. rewrite save_data_run. cbn [final files].
  assert (Forall (fun line => 4 ≤ field_count line) (map record_line (rooms w)))
    as Hlines.
  { apply Forall_forall. intros line Hin.
    apply list_elem_of_fmap in Hin as (room & -> & Hin).
    apply safe_field_count. by apply (proj1 (Forall_forall _ _) Hsafe). }
  rewrite new_on_text_run. cbv zeta. rewrite lookup_insert_eq.
  cbn [from_option id].
  rewrite readlines_written_safe by done.
  destruct (loadable_all _ Hlines) as [-> ->].
  rewrite map_map. f_equal. f_equal.
  induction Hsafe as [|room l Hs _ IH]; [done|].
  simpl. rewrite safe_room_of_record_line by done. f_equal.
  apply IH. by apply Forall_cons in Hlines as [_ ?].
Qed.

(** X18. Rooms whose strings hold no ['|'] and no line end, with no
    white space at the start of the room number or the end of the customer
    name, but possibly with commas in their features or without features:
    a store constructed on the file [save_data] wrote holds the same rooms
    with each feature list joined by commas and split again, prints no
    error, and would write the very same file.  Feature lists may come back
    changed (the claim C1 excludes these rooms), the file does not, and a
    second round through the file changes nothing any more. *)
Theorem saved_file_is_stable (w : store) :
  Forall (fun room => room_text_safe room = true) (rooms w) ->
  let saved := files (final (save_data w)) in
  new saved = Ok tt (World (map reread (rooms w)) saved [])
  ∧ Forall (fun room =>
              reread room = mkRoom (room_number room)
                              (split comma (join "," (features room)))
                              (is_allocated room) (customer_name room)) (rooms w)
  ∧ written (map reread (rooms w)) = written (rooms w)
  ∧ map reread (map reread (rooms w)) = map reread (rooms w).
Proof.
  intros Hsafe. cbv zeta. split; [|split; [|split]].
  - apply new_on_saved. eapply Forall_impl; [exact Hsafe|].
    intros room Hr. by apply room_text_safe_record in Hr as [? _].
  - eapply Forall_impl; [exact Hsafe|]. intros room Hr.
    apply room_text_safe_record in Hr as [_ Hname].
    unfold reread. by rewrite (split_whole pipe) by done.
  - induction Hsafe as [|room l Hr _ IH]; [done|].
    apply room_text_safe_record in Hr as [_ Hname].
    simpl. by rewrite record_line_reread, IH.
  - rewrite map_map. apply map_ext. intros room. apply reread_idem.
Qed.

Lemma saved_file_is_stable_witness :
  let l := [mkRoom "1" [] false ""; mkRoom "2, west" ["wifi,ac"; "tv"] true "Lee, Ann"] in
  let w := World l ∅ [] in
  new (files (final (save_data w)))
  = Ok tt (World [mkRoom "1" [""] false "";
                  mkRoom "2, west" ["wifi"; "ac"; "tv"] true "Lee, Ann"]
             (files (final (save_data w))) [])
  ∧ written (map reread l) = written l.
Proof.
  intros l w.
  destruct (saved_file_is_stable w) as (Hnew & _ & Hfile & _).
  - repeat constructor.
  - split; [exact Hnew | exact Hfile].
Defined.

(** X19. A ['|'] in a customer name is not an error and not kept: the
    record simply has more fields, of which [load_data] reads four.  Rooms
    saved and loaded again come back with each customer name cut before its
    first ['|'], and nothing is printed. *)
Theorem customer_name_is_cut_at_pipe (w : store) :
  Forall (fun room => room_record_safe room = true) (rooms w) ->
  let saved := files (final (save_data w)) in
  exists w',
    new saved = Ok tt w'
    ∧ trace w' = []
    ∧ map room_number (rooms w') = map room_number (rooms w)
    ∧ map is_allocated (rooms w') = map is_allocated (rooms w)
    ∧ map customer_name (rooms w')
      = map (fun room => hd "" (split pipe (customer_name room))) (rooms w)
    ∧ Forall (fun room => contains pipe (customer_name room) = false) (rooms w').
Proof.
  intros Hsafe. cbv zeta. rewrite new_on_saved by done.
  eexists. split; [done|]. cbn [trace rooms self]. split; [done|].
  rewrite !map_map. repeat split; try done.
  apply Forall_forall. intros room Hin.
  apply list_elem_of_fmap in Hin as (room0 & -> & _).
  unfold reread. cbn [customer_name]. apply hd_split_free.
Qed.

Lemma customer_name_is_cut_at_pipe_witness :
  let w := World [mkRoom "9" ["tv"] true "Smith|Jones"] ∅ [] in
  exists w', new (files (final (save_data w))) = Ok tt w'
             ∧ map customer_name (rooms w') = ["Smith"].
Proof.
  intros w.
  destruct (customer_name_is_cut_at_pipe w) as (w' & Hnew & _ & _ & _ & Hname & _).
  - repeat constructor.
  - exists w'. split; [exact Hnew | exact Hname].
Defined.

(** *** The menu loop *)

Import Menu.

Lemma bind_input_nil {A} (prompt : string) (k : string -> Tm A) (t : terminal) :
  stdin t = [] ->
  (line ← input prompt; k line) t
  = Uncaught eof_error
      (Terminal (sys t) [] (ticks t) (asked t ++ [(length (trace (sys t)), prompt)])).
Proof. intros Hin. unfold mbind, Tm_bind, input. by rewrite Hin. Qed.

Lemma bind_input_cons {A} (prompt line : string) (rest : list string)
    (k : string -> Tm A) (t : terminal) :
  stdin t = line :: rest ->
  (x ← input prompt; k x) t
  = k line (Terminal (sys t) rest (ticks t)
              (asked t ++ [(length (trace (sys t)), prompt)])).
Proof. intros Hin. unfold mbind, Tm_bind, input. by rewrite Hin. Qed.

Lemma bind_invoke {A} (m : St unit) (k : Tm A) (t : terminal) (w' : store) :
  m (sys t) = Ok tt w' ->
  (invoke m;; k) t = k (Terminal w' (stdin t) (ticks t) (asked t)).
Proof. intros Hm. unfold mbind, Tm_bind, invoke. by rewrite Hm. Qed.

Lemma say_run (line : string) (t : terminal) :
  say line t
  = Done tt (Terminal (World (rooms (sys t)) (files (sys t))
                         (trace (sys t) ++ [EvPrint line]))
               (stdin t) (ticks t) (asked t)).
Proof. reflexivity. Qed.

Lemma bind_say {A} (line : string) (k : Tm A) (t : terminal) :
  (say line;; k) t
  = k (Terminal (World (rooms (sys t)) (files (sys t))
                   (trace (sys t) ++ [EvPrint line]))
         (stdin t) (ticks t) (asked t)).
Proof. reflexivity. Qed.

Lemma print_menu_run (t : terminal) :
  print_menu t
  = Done tt (Terminal (World (rooms (sys t)) (files (sys t))
                         (trace (sys t) ++ menu_lines))
               (stdin t) (ticks t) (asked t)).
Proof.
  destruct t as [[l fs tr] lines k log]. unfold print_menu.
  repeat (rewrite bind_say; cbn [sys rooms self files trace stdin ticks asked]).
  rewrite say_run. cbn [sys rooms self files trace stdin ticks asked].
  unfold menu_lines. by rewrite <- !app_assoc.
Qed.

(** One reading of [input] inside the loop body either gets a line or ends
    the body with [EOFError], which the [try] of [main] lets through. *)
Lemma try_main_eof (body : Tm bool) (t t' : terminal) :
  body t = Uncaught eof_error t' -> try_main body t = Uncaught eof_error t'.
Proof. intros Hb. unfold try_main. by rewrite Hb. Qed.

Lemma try_main_done (body : Tm bool) (t t' : terminal) (b : bool) :
  body t = Done b t' -> try_main body t = Done b t'.
Proof. intros Hb. unfold try_main. by rewrite Hb. Qed.

(** The shape of what a command leaves of a terminal. *)
Lemma invoke_execute {A} (c : command) (k : Tm A) (t : terminal) :
  exists w', (invoke (execute c);; k) t
             = k (Terminal w' (stdin t) (ticks t) (asked t)).
Proof.
  destruct (execute_returns c (sys t)) as (w' & Hc & _).
  exists w'. by apply bind_invoke.
Qed.

Ltac menu_steps :=
  unfold mbind, Tm_bind, mret, Tm_ret, input, invoke, say, datetime_now;
  cbn [stdin sys ticks asked].

Ltac method_returns c w :=
  let w' := fresh "w'" in
  let Hc := fresh "Hc" in
  cbn [stdin sys ticks asked];
  destruct (execute_returns c w) as (w' & Hc & _);
  cbn [execute] in Hc; rewrite Hc.

(** A menu choice ends in one of two ways: its action returns, leaving a
    tail of the lines there were, and asks to leave the loop exactly for
    the choice [0]; or [input] found no line and [EOFError] is on its
    way out. *)
Lemma dispatch_outcome (clock : nat -> datetime) (choice : string) (t : terminal) :
  (exists t', dispatch clock choice t = Done (String.eqb choice "0") t'
              ∧ stdin t' `suffix_of` stdin t)
  ∨ (exists t', dispatch clock choice t = Uncaught eof_error t' ∧ stdin t' = []).
Proof.
  destruct t as [w lines k log]. unfold dispatch.
  destruct (String.eqb choice "1") eqn:E1.
  { apply String.eqb_eq in E1 as ->. menu_steps.
    destruct lines as [|number [|feats rest]]; [right; by eexists ..|].
    method_returns (CmdAdd number (PyList (split comma feats))) w.
    left. eexists. split; [reflexivity|]. simpl. by repeat apply suffix_cons_r. }
  destruct (String.eqb choice "2") eqn:E2.
  { apply String.eqb_eq in E2 as ->. menu_steps.
    destruct lines as [|number rest]; [right; by eexists|].
    method_returns (CmdDelete number) w.
    left. eexists. split; [reflexivity|]. simpl. by repeat apply suffix_cons_r. }
  destruct (String.eqb choice "3") eqn:E3.
  { apply String.eqb_eq in E3 as ->. menu_steps.
    method_returns CmdDisplay w.
    left. eexists. split; [reflexivity|]. simpl. by repeat apply suffix_cons_r. }
  destruct (String.eqb choice "4") eqn:E4.
  { apply String.eqb_eq in E4 as ->. menu_steps.
    destruct lines as [|number [|customer rest]]; [right; by eexists ..|].
    method_returns (CmdAllocate number customer) w.
    left. eexists. split; [reflexivity|]. simpl. by repeat apply suffix_cons_r. }
  destruct (String.eqb choice "5") eqn:E5.
  { apply String.eqb_eq in E5 as ->. menu_steps.
    method_returns CmdDisplayAllocation w.
    left. eexists. split; [reflexivity|]. simpl. by repeat apply suffix_cons_r. }
  destruct (String.eqb choice "6") eqn:E6.
  { apply String.eqb_eq in E6 as ->. menu_steps.
    destruct lines as [|number rest]; [right; by eexists|].
    method_returns (CmdBill number) w.
    left. eexists. split; [reflexivity|]. simpl. by repeat apply suffix_cons_r. }
  destruct (String.eqb choice "7") eqn:E7.
  { apply String.eqb_eq in E7 as ->. menu_steps.
    method_returns CmdSave w.
    left. eexists. split; [reflexivity|]. simpl. by repeat apply suffix_cons_r. }
  destruct (String.eqb choice "8") eqn:E8.
  { apply String.eqb_eq in E8 as ->. menu_steps.
    method_returns CmdShow w.
    left. eexists. split; [reflexivity|]. simpl. by repeat apply suffix_cons_r. }
  destruct (String.eqb choice "9") eqn:E9.
  { apply String.eqb_eq in E9 as ->. menu_steps.
    method_returns (CmdBackup (clock k)) w.
    left. eexists. split; [reflexivity|]. simpl. by repeat apply suffix_cons_r. }
  destruct (String.eqb choice "0") eqn:E0.
  { left. eexists. split; [reflexivity|]. simpl. by repeat apply suffix_cons_r. }
  left. eexists. split; [reflexivity|]. simpl. by repeat apply suffix_cons_r.
Qed.

Lemma menu_once_after_menu (clock : nat -> datetime) (t : terminal) :
  menu_once clock t
  = (choice ← input "Enter your choice: "; try_main (dispatch clock choice))
      (Terminal (World (rooms (sys t)) (files (sys t)) (trace (sys t) ++ menu_lines))
         (stdin t) (ticks t) (asked t)).
Proof.
  unfold menu_once. unfold mbind at 1. unfold Tm_bind at 1.
  by rewrite print_menu_run.
Qed.

(** One turn of the loop, likewise; a turn that returns has read its
    choice, so it leaves fewer lines than it found. *)
Lemma menu_once_outcome (clock : nat -> datetime) (t : terminal) :
  (exists choice rest t',
      stdin t = choice :: rest
      ∧ menu_once clock t = Done (String.eqb choice "0") t'
      ∧ stdin t' `suffix_of` rest)
  ∨ (exists t', menu_once clock t = Uncaught eof_error t' ∧ stdin t' = []).
Proof.
  rewrite menu_once_after_menu.
  destruct (stdin t) as [|choice rest] eqn:Hin.
  - right. rewrite bind_input_nil by reflexivity. by eexists.
  - rewrite (bind_input_cons _ choice rest) by reflexivity.
    match goal with |- context [try_main _ ?t1] =>
      destruct (dispatch_outcome clock choice t1) as [(t' & Hd & Hsuf)|(t' & Hd & Hnil)]
    end.
    + left. exists choice, rest, t'. split; [done|].
      split; [by apply try_main_done | exact Hsuf].
    + right. exists t'. split; [by apply try_main_eof | done].
Qed.

Lemma main_loop_outcome (clock : nat -> datetime) (fuel : nat) (t : terminal) :
  length (stdin t) < fuel ->
  (exists t', main_loop clock fuel t = Some (Done tt t') ∧ "0" ∈ stdin t)
  ∨ (exists t', main_loop clock fuel t = Some (Uncaught eof_error t') ∧ stdin t' = []).
Proof.
  revert t. induction fuel as [|fuel IH]; intros t Hfuel; [lia|].
  cbn [main_loop].
  destruct (menu_once_outcome clock t)
    as [(choice & rest & t' & Hin & -> & Hsuf)|(t' & -> & Hnil)].
  - rewrite Hin in *. pose proof (suffix_length _ _ Hsuf) as Hlen. simpl in Hfuel.
    destruct (String.eqb choice "0") eqn:E0.
    + left. exists t'. split; [done|]. apply String.eqb_eq in E0 as ->. by left.
    + destruct (IH t') as [(t2 & -> & Hzero)|(t2 & -> & Hnil)]; [lia | |].
      * left. exists t2. split; [done|]. right.
        destruct Hsuf as [k ->]. apply elem_of_app. by right.
      * right. by exists t2.
  - right. by exists t'.
Qed.

Lemma main_loop_more_fuel (clock : nat -> datetime) (fuel extra : nat)
    (t : terminal) (o : outcome unit) :
  main_loop clock fuel t = Some o -> main_loop clock (fuel + extra) t = Some o.
Proof.
  revert t. induction fuel as [|fuel IH]; intros t; [done|].
  cbn [main_loop Nat.add].
  destruct (menu_once clock t) as [[] t'|e t']; auto.
Qed.

(** X20. [main] comes to an end on every finite input, in one of two
    ways.  It returns, and then some line of the input is the exit choice
    [0]; or the input runs out and the [EOFError] of [input] leaves [main]
    uncaught, its [try] handling only [ValueError] and [TypeError].  One
    turn of the loop for every line and one more is always enough, and more
    turns give the same result.  In particular an input without the line
    [0] always ends in the [EOFError]. *)
Theorem main_ends (clock : nat -> datetime) (fs : gmap string string)
    (lines : list string) (fuel : nat) :
  length lines < fuel ->
  main clock fuel fs lines = main clock (S (length lines)) fs lines
  ∧ ((exists t, main clock fuel fs lines = Some (Done tt t) ∧ "0" ∈ lines)
     ∨ (exists t, main clock fuel fs lines = Some (Uncaught eof_error t)
                  ∧ stdin t = [])).
Proof.
  intros Hfuel. unfold main. rewrite new_on_text_run. cbv zeta.
  match goal with |- context [main_loop clock fuel ?t0] => set (t := t0) end.
  assert (length (stdin t) < S (length lines)) as Hmin by (simpl; lia).
  assert (length (stdin t) < fuel) as Hfuel' by (simpl; lia).
  split.
  - destruct (main_loop_outcome clock _ t Hmin) as [(t' & Hm & _)|(t' & Hm & _)];
      replace fuel with (S (length lines) + (fuel - S (length lines))) by lia;
      rewrite (main_loop_more_fuel _ _ _ _ _ Hm); by rewrite Hm.
  - apply (main_loop_outcome clock fuel t Hfuel').
Qed.

Lemma main_ends_witness :
  let clock := fun k => mkDatetime 2024 6 26 9 5 k in
  let lines := ["1"; "5"; "wifi,ac"; "4"; "5"; "Ann"; "0"; "3"] in
  main clock 20 ∅ lines = main clock 9 ∅ lines.
Proof.
  intros clock lines. apply (main_ends clock ∅ lines 20). simpl. lia.
Defined.

(** A session that ends with the exit choice, the line after it unread, and
    one that runs out of input although it holds a line [0]. *)
Example main_on_two_inputs :
  let clock := fun k => mkDatetime 2024 6 26 9 5 k in
  match main clock 9 ∅ ["1"; "5"; "wifi,ac"; "4"; "5"; "Ann"; "0"; "3"] with
  | Some (Done _ t) =>
      rooms (sys t) = [mkRoom "5" ["wifi"; "ac"] true "Ann"] ∧ stdin t = ["3"]
  | _ => False
  end
  ∧ match main clock 4 ∅ ["6"; "0"; "8"] with
    | Some (Uncaught e t) => e = eof_error ∧ stdin t = []
    | _ => False
    end.
Proof. vm_compute. repeat split. Qed.

Lemma add_room_list_run (w : store) (number : string) (items : list string) :
  let l' := rooms w ++ [mkRoom number items false ""] in
  add_room number (PyList items) w
  = Ok tt (World l' (<[file_name := written l']> (files w))
             (trace w ++ [EvWrite file_name (written l');
                          EvPrint ("Room " +:+ number +:+ " is successfully added.")])).
Proof. open_store w. unfold add_room. exec. by rewrite <- app_assoc. Qed.

(** X21. Adding a room from the menu: the line of features is split at
    its commas, so [add_room] always gets a list, with at least one
    element, and its type check cannot fail.  The room is appended free and
    without customer, and its record in the file shows the features as they
    were typed.  The turn reads three lines and the loop goes on. *)
Theorem menu_adds_room (clock : nat -> datetime) (t : terminal)
    (number feats : string) (rest : list string) :
  stdin t = "1" :: number :: feats :: rest ->
  let room := mkRoom number (split comma feats) false "" in
  exists t',
    menu_once clock t = Done false t'
    ∧ rooms (sys t') = rooms (sys t) ++ [room]
    ∧ files (sys t') = <[file_name := written (rooms (sys t'))]> (files (sys t))
    ∧ stdin t' = rest
    ∧ features room ≠ []
    ∧ record_line room = number +:+ "|" +:+ feats +:+ "|False|" +:+ String LF "".
Proof.
  intros Hin room. rewrite menu_once_after_menu.
  rewrite (bind_input_cons _ "1" (number :: feats :: rest)) by exact Hin.
  eexists. split.
  - apply try_main_done. unfold dispatch. cbn [String.eqb Ascii.eqb Bool.eqb].
    rewrite (bind_input_cons _ number (feats :: rest)) by done.
    rewrite (bind_input_cons _ feats rest) by done.
    rewrite (bind_invoke _ _ _ _ (add_room_list_run _ number (split comma feats))).
    reflexivity.
  - cbn [sys stdin rooms self files].
    split; [done|]. split; [done|]. split; [done|].
    split; [apply split_nonempty|].
    unfold record_line, room. cbn [room_number features is_allocated customer_name].
    by rewrite join_split.
Qed.

Lemma menu_adds_room_witness :
  let clock := fun k => mkDatetime 2024 6 26 9 5 k in
  let t := Terminal (World [] ∅ []) ["1"; "12A"; ""; "0"] 0 [] in
  exists t',
    menu_once clock t = Done false t'
    ∧ rooms (sys t') = [mkRoom "12A" [""] false ""]
    ∧ files (sys t') !! file_name = Some ("12A||False|" +:+ String LF "")
    ∧ stdin t' = ["0"].
Proof.
  intros clock t.
  destruct (menu_adds_room clock t "12A" "" ["0"] eq_refl)
    as (t' & Hm & Hr & Hf & Hs & _).
  exists t'. split; [exact Hm|]. split; [exact Hr|]. split; [|exact Hs].
  rewrite Hf, Hr. reflexivity.
Defined.

(** X22. A choice the menu does not know changes nothing but the
    console: the turn prints the menu and the invalid-choice message, reads
    that one line, leaves rooms, files and clock alone, and the loop goes
    on. *)
Theorem unknown_choice_is_ignored (clock : nat -> datetime) (t : terminal)
    (choice : string) (rest : list string) :
  stdin t = choice :: rest ->
  known_choice choice = false ->
  menu_once clock t
  = Done false
      (Terminal (World (rooms (sys t)) (files (sys t))
                   (trace (sys t) ++ menu_lines
                    ++ [EvPrint "Invalid choice, please try again."]))
         rest (ticks t)
         (asked t ++ [(length (trace (sys t) ++ menu_lines), "Enter your choice: ")])).
Proof.
  intros Hin Hknown. rewrite menu_once_after_menu.
  rewrite (bind_input_cons _ choice rest) by exact Hin.
  apply try_main_done. unfold dispatch.
  apply bool_decide_eq_false in Hknown. rewrite !not_elem_of_cons in Hknown.
  destruct Hknown as (H0 & H1 & H2 & H3 & H4 & H5 & H6 & H7 & H8 & H9 & _).
  apply String.eqb_neq in H0, H1, H2, H3, H4, H5, H6, H7, H8, H9.
  rewrite H0, H1, H2, H3, H4, H5, H6, H7, H8, H9.
  unfold say, invoke, mbind, Tm_bind, mret, Tm_ret, print, emit.
  cbn [sys stdin ticks asked self files trace rooms].
  by rewrite <- app_assoc.
Qed.

Lemma unknown_choice_is_ignored_witness :
  let clock := fun k => mkDatetime 2024 6 26 9 5 k in
  let w := World [mkRoom "5" ["wifi"] true "Ann"] ∅ [] in
  exists t', menu_once clock (Terminal w ["10"; "0"] 0 []) = Done false t'
             ∧ rooms (sys t') = rooms w ∧ files (sys t') = ∅ ∧ stdin t' = ["0"].
Proof.
  intros clock w. eexists.
  rewrite (unknown_choice_is_ignored clock (Terminal w ["10"; "0"] 0 []) "10" ["0"]);
    [|reflexivity|reflexivity].
  repeat split.
Defined.
